(** * The QUIC TLS adapter of curl: lib/vquic/vquic-tls.c

    A shallow embedding of the five entry points of vquic-tls.c
    (Curl_vquic_tls_init, Curl_vquic_tls_cleanup,
    Curl_vquic_tls_before_recv, Curl_vquic_tls_verify_peer and the two
    wolfSSL helpers curl_wssl_init_ctx and curl_wssl_init_ssl) together
    with the properties of the design document that concern them.

    The C file is one source compiled in three mutually exclusive ways
    (USE_OPENSSL, USE_GNUTLS, USE_WOLFSSL).  The embedding keeps that
    choice as a parameter of type [tls_backend]; the layout of
    [struct curl_tls_ctx] depends on it, exactly as in the header.

    Calls into the TLS libraries and into the rest of curl are recorded
    in a trace of events.  What such a call answers is not known to this
    file, so it is read from a record of oracles that see the whole
    history; every theorem below holds for all oracles. *)

From Stdlib Require Import List String Ascii Bool Arith ZArith Lia.
Import ListNotations.

Local Open Scope string_scope.

(** ** Result codes *)

(** The members of the [CURLcode] enumeration that vquic-tls.c names, and
    [CURLE_other] for the remaining ones (callbacks and the backend
    helpers may answer with any code). *)
Inductive CURLcode : Type :=
| CURLE_OK
| CURLE_FAILED_INIT
| CURLE_NOT_BUILT_IN
| CURLE_OUT_OF_MEMORY
| CURLE_BAD_FUNCTION_ARGUMENT
| CURLE_PEER_FAILED_VERIFICATION
| CURLE_SSL_CACERT_BADFILE
| CURLE_other (n : nat).

(** [if(result)] in C: true for every code but [CURLE_OK]. *)
Definition failed (r : CURLcode) : bool :=
  match r with CURLE_OK => false | _ => true end.

(** ** Build configuration *)

Inductive tls_backend : Type := USE_OPENSSL | USE_GNUTLS | USE_WOLFSSL.

(** The remaining preprocessor switches the file tests. *)
Record build_flags : Type := {
  HAVE_SECRET_CALLBACK : bool;
  CURL_CA_FALLBACK : bool;
  DEBUGBUILD : bool   (* DEBUGASSERT is assert() only in debug builds *)
}.

(** ** Data *)

(** A non-null pointer to a library object; [option handle] is a pointer
    that may be NULL. *)
Definition handle := nat.

Record ssl_primary_config : Type := {
  cipher_list13 : option string;
  curves : option string;
  verifypeer : bool;
  verifyhost : bool;
  CAfile : option string;
  CApath : option string
}.

Record ssl_peer : Type := { sni : option string }.

(** The connection filter is only ever asked for its primary TLS
    configuration; the field holds what [Curl_ssl_cf_get_primary_config]
    answers for it (NULL is [None]). *)
Record Curl_cfilter : Type := {
  cf_primary_config : option ssl_primary_config
}.

Definition Curl_ssl_cf_get_primary_config (cf : Curl_cfilter)
  : option ssl_primary_config := cf_primary_config cf.

(** Backend members of [struct curl_tls_ctx], with the fields this file
    reads or writes. *)
Record ossl_ctx : Type := {
  ossl_ssl_ctx : option handle;
  ossl_ssl : option handle;
  x509_store_setup : bool
}.

Record gtls_ctx : Type := {
  cred : option handle;
  session : option handle;
  trust_setup : bool
}.

Record wssl_ctx : Type := {
  ssl_ctx : option handle;
  ssl : option handle
}.

Definition curl_tls_ctx (b : tls_backend) : Type :=
  match b with
  | USE_OPENSSL => ossl_ctx
  | USE_GNUTLS => gtls_ctx
  | USE_WOLFSSL => wssl_ctx
  end.

(** What [memset(ctx, 0, sizeof( *ctx))] leaves behind. *)
Definition zeroed (b : tls_backend) : curl_tls_ctx b :=
  match b with
  | USE_OPENSSL =>
      {| ossl_ssl_ctx := None; ossl_ssl := None; x509_store_setup := false |}
  | USE_GNUTLS => {| cred := None; session := None; trust_setup := false |}
  | USE_WOLFSSL => {| ssl_ctx := None; ssl := None |}
  end.

(** ** Library constants *)

Definition QUIC_CIPHERS : string :=
  "TLS_AES_128_GCM_SHA256:TLS_AES_256_GCM_SHA384:TLS_CHACHA20_"
  ++ "POLY1305_SHA256:TLS_AES_128_CCM_SHA256".

Definition QUIC_GROUPS : string := "P-256:P-384:P-521".

(** wolfSSL's OpenSSL-compatible return values. *)
Definition SSL_SUCCESS : Z := 1.
Definition SSL_FAILURE : Z := 0.

Inductive verify_mode : Type := SSL_VERIFY_NONE | SSL_VERIFY_PEER.

Definition WOLFSSL_LOAD_FLAG_IGNORE_ERR : Z := 1.

(** C conversions applied to lengths before they reach wolfSSL. *)
Definition to_int (n : nat) : Z :=
  let z := (Z.of_nat n mod 2 ^ 32)%Z in
  if (z <? 2 ^ 31)%Z then z else (z - 2 ^ 32)%Z.

Definition to_ushort (n : nat) : Z := (Z.of_nat n mod 2 ^ 16)%Z.

(** ** Events *)

(** One constructor per call that leaves this file.  Results of the call
    are part of the event. *)
Inductive event : Type :=
(* wolfSSL context *)
| ev_wolfSSL_CTX_new (p : option handle)
| ev_cb_setup (r : CURLcode)
| ev_CTX_set_default_verify_paths (c : handle)
| ev_CTX_set_cipher_list (c : handle) (list : string) (rc : Z)
| ev_CTX_set1_groups_list (c : handle) (list : string) (rc : Z)
| ev_keylog_open
| ev_CTX_set_keylog_callback (c : handle)
| ev_CTX_set_verify (c : handle) (m : verify_mode)
| ev_CTX_load_verify_locations (c : handle) (file path : option string)
                               (flags rc : Z)
| ev_set_in_callback (on : bool)
| ev_fsslctx (c : handle) (r : CURLcode)
| ev_SSL_CTX_free (c : handle)
(* wolfSSL session *)
| ev_wolfSSL_new (c : option handle) (p : option handle)
| ev_set_app_data (s : option handle) (user_data : option handle)
| ev_set_connect_state (s : option handle)
| ev_set_quic_use_legacy_codepoint (s : option handle) (v : Z)
| ev_set_alpn_protos (s : option handle) (alpn : string) (len : Z)
| ev_UseSNI (s : option handle) (name : string) (len : Z)
| ev_SSL_free (s : handle)
| ev_check_domain_name (s : option handle) (name : string) (rc : Z)
(* OpenSSL and GnuTLS helpers of curl *)
| ev_Curl_ossl_ctx_init (r : CURLcode)
| ev_Curl_gtls_ctx_init (r : CURLcode)
| ev_Curl_ssl_setup_x509_store (c : option handle) (r : CURLcode)
| ev_Curl_gtls_client_trust_setup (r : CURLcode)
| ev_Curl_oss_check_peer_cert (r : CURLcode)
| ev_Curl_gtls_verifyserver (s : option handle) (r : CURLcode)
| ev_gnutls_certificate_free_credentials (c : handle)
| ev_gnutls_deinit (s : handle)
(* messages *)
| ev_failf (msg : string)
| ev_infof (msg : string).

(** The history of a run, newest event first. *)
Definition trace := list event.

(** ** Callbacks and oracles *)

(** [Curl_vquic_tls_ctx_setup]: the transport's hook on the new context. *)
Definition Curl_vquic_tls_ctx_setup := trace -> CURLcode.

(** [curl_ssl_ctx_callback]: the application's hook. *)
Definition curl_ssl_ctx_callback := trace -> handle -> CURLcode.

Record Curl_easy : Type := {
  fsslctx : option curl_ssl_ctx_callback;
  STRING_SSL_PINNEDPUBLICKEY : option string
}.

(** Everything the file calls and does not define.  An allocator answers
    whether it succeeds; the pointer it hands out is chosen by the model
    (see [fresh]). *)
Record externals : Type := {
  x_wolfSSL_CTX_new : trace -> bool;
  x_wolfSSL_CTX_set_cipher_list : trace -> handle -> string -> Z;
  x_ERR_error_string : trace -> string;
  x_wolfSSL_CTX_set1_groups_list : trace -> handle -> string -> Z;
  x_Curl_tls_keylog_enabled : trace -> bool;
  x_wolfSSL_CTX_load_verify_locations_ex :
    trace -> handle -> option string -> option string -> Z;
  x_wolfSSL_new : trace -> option handle -> bool;
  x_wolfSSL_check_domain_name : trace -> option handle -> string -> Z;
  x_Curl_ossl_ctx_init :
    trace -> ossl_ctx -> Curl_cfilter -> Curl_easy -> ssl_peer ->
    CURLcode * ossl_ctx;
  x_Curl_gtls_ctx_init :
    trace -> gtls_ctx -> Curl_cfilter -> Curl_easy -> ssl_peer ->
    CURLcode * gtls_ctx;
  x_Curl_ssl_setup_x509_store :
    trace -> Curl_cfilter -> Curl_easy -> option handle -> CURLcode;
  x_Curl_gtls_client_trust_setup :
    trace -> Curl_cfilter -> Curl_easy -> gtls_ctx -> CURLcode * gtls_ctx;
  x_Curl_oss_check_peer_cert :
    trace -> Curl_cfilter -> Curl_easy -> ossl_ctx -> ssl_peer ->
    CURLcode * ossl_ctx;
  x_Curl_gtls_verifyserver :
    trace -> Curl_easy -> option handle -> ssl_primary_config -> ssl_peer ->
    option string -> CURLcode
}.

(** ** The monad of a C function working on [*ctx] *)

Section Monad.
(** The structure behind the [ctx] pointer. *)
Context {S : Type}.

Inductive outcome (A : Type) : Type :=
| Ret (a : A) (s : S) (tr : trace)        (* fell through *)
| Early (r : CURLcode) (s : S) (tr : trace) (* return r / goto out *)
| Abort (tr : trace).                      (* a DEBUGASSERT fired *)

Definition M (A : Type) : Type := S -> trace -> outcome A.

Definition ret {A} (a : A) : M A := fun s tr => Ret A a s tr.

Definition bind {A B} (m : M A) (k : A -> M B) : M B :=
  fun s tr =>
    match m s tr with
    | Ret _ a s' tr' => k a s' tr'
    | Early _ r s' tr' => Early B r s' tr'
    | Abort _ tr' => Abort B tr'
    end.

Definition get : M S := fun s tr => Ret S s s tr.
Definition put (s : S) : M unit := fun _ tr => Ret unit tt s tr.
Definition history : M trace := fun s tr => Ret trace tr s tr.
Definition emit (e : event) : M unit := fun s tr => Ret unit tt s (e :: tr).

(** [return r;] in the middle of a function, and [goto out;] once
    [result] has been assigned [r]. *)
Definition early {A} (r : CURLcode) : M A := fun s tr => Early A r s tr.

(** The place an [early] exit lands: the end of the function for
    [return], the label for [goto out]. *)
Definition landing (m : M CURLcode) : M CURLcode :=
  fun s tr =>
    match m s tr with
    | Early _ r s' tr' => Ret CURLcode r s' tr'
    | o => o
    end.

Definition assert_failed {A} : M A := fun _ tr => Abort A tr.
End Monad.

Arguments outcome : clear implicits.
Arguments M : clear implicits.
Arguments Ret {S A} a s tr.
Arguments Early {S A} r s tr.
Arguments Abort {S A} tr.

Declare Scope cfun_scope.
Delimit Scope cfun_scope with cfun.
Notation "x <- m ;; k" := (bind m (fun x => k))
  (at level 100, m at next level, right associativity) : cfun_scope.
Notation "m ;; k" := (bind m (fun _ => k))
  (at level 100, right associativity) : cfun_scope.
Local Open Scope cfun_scope.

(** [if(c) stmt] with no else branch. *)
Definition when {S} (c : bool) (m : M S unit) : M S unit :=
  if c then m else ret tt.

(** A pointer not yet handed out: every earlier allocation took the
    length of a shorter history. *)
Definition fresh (tr : trace) : handle := List.length tr.

Definition is_null {A} (p : option A) : bool :=
  match p with None => true | Some _ => false end.

(** [p ? p : d] on C strings. *)
Definition or_default (p : option string) (d : string) : string :=
  match p with Some s => s | None => d end.

(** ** The code of vquic-tls.c *)

Section Code.
Variable X : externals.
Variable F : build_flags.

(** *** Calls that leave the file *)

Definition DEBUGASSERT {S} (c : bool) : M S unit :=
  if DEBUGBUILD F && negb c then assert_failed else ret tt.

Definition failf {S} (msg : string) : M S unit := emit (ev_failf msg).
Definition infof {S} (msg : string) : M S unit := emit (ev_infof msg).

Definition wolfSSL_CTX_new {S} : M S (option handle) :=
  tr <- history;;
  let p := if x_wolfSSL_CTX_new X tr then Some (fresh tr) else None in
  emit (ev_wolfSSL_CTX_new p);;
  ret p.

Definition call_cb_setup {S} (cb : Curl_vquic_tls_ctx_setup)
  : M S CURLcode :=
  tr <- history;;
  let r := cb tr in
  emit (ev_cb_setup r);;
  ret r.

Definition wolfSSL_CTX_set_default_verify_paths {S} (c : handle)
  : M S unit := emit (ev_CTX_set_default_verify_paths c).

Definition wolfSSL_CTX_set_cipher_list {S} (c : handle) (list : string)
  : M S Z :=
  tr <- history;;
  let rc := x_wolfSSL_CTX_set_cipher_list X tr c list in
  emit (ev_CTX_set_cipher_list c list rc);;
  ret rc.

(** [ERR_error_string_n(ERR_get_error(), buf, len)]: the text of the
    pending error, cut to fit [len] bytes with the terminator. *)
Definition ERR_error_string_n {S} (len : nat) : M S string :=
  tr <- history;;
  ret (substring 0 (len - 1) (x_ERR_error_string X tr)).

Definition wolfSSL_CTX_set1_groups_list {S} (c : handle) (list : string)
  : M S Z :=
  tr <- history;;
  let rc := x_wolfSSL_CTX_set1_groups_list X tr c list in
  emit (ev_CTX_set1_groups_list c list rc);;
  ret rc.

Definition Curl_tls_keylog_open {S} : M S unit := emit ev_keylog_open.

Definition Curl_tls_keylog_enabled {S} : M S bool :=
  tr <- history;;
  ret (x_Curl_tls_keylog_enabled X tr).

Definition wolfSSL_CTX_set_keylog_callback {S} (c : handle) : M S unit :=
  emit (ev_CTX_set_keylog_callback c).

Definition wolfSSL_CTX_set_verify {S} (c : handle) (m : verify_mode)
  : M S unit := emit (ev_CTX_set_verify c m).

Definition wolfSSL_CTX_load_verify_locations_ex {S} (c : handle)
  (file path : option string) (flags : Z) : M S Z :=
  tr <- history;;
  let rc := x_wolfSSL_CTX_load_verify_locations_ex X tr c file path in
  emit (ev_CTX_load_verify_locations c file path flags rc);;
  ret rc.

Definition Curl_set_in_callback {S} (on : bool) : M S unit :=
  emit (ev_set_in_callback on).

Definition call_fsslctx {S} (cb : curl_ssl_ctx_callback) (c : handle)
  : M S CURLcode :=
  tr <- history;;
  let r := cb tr c in
  emit (ev_fsslctx c r);;
  ret r.

(** [SSL_CTX_free] is wolfSSL's compatibility name of
    [wolfSSL_CTX_free]; both are the same event. *)
Definition SSL_CTX_free {S} (c : handle) : M S unit :=
  emit (ev_SSL_CTX_free c).
Definition SSL_free {S} (s : handle) : M S unit := emit (ev_SSL_free s).

Definition wolfSSL_new {S} (c : option handle) : M S (option handle) :=
  tr <- history;;
  let p := if x_wolfSSL_new X tr c then Some (fresh tr) else None in
  emit (ev_wolfSSL_new c p);;
  ret p.

Definition wolfSSL_check_domain_name {S} (s : option handle)
  (name : string) : M S Z :=
  tr <- history;;
  let rc := x_wolfSSL_check_domain_name X tr s name in
  emit (ev_check_domain_name s name rc);;
  ret rc.

Definition Curl_ossl_ctx_init (cf : Curl_cfilter) (data : Curl_easy)
  (peer : ssl_peer) : M ossl_ctx CURLcode :=
  octx <- get;;
  tr <- history;;
  let '(r, octx') := x_Curl_ossl_ctx_init X tr octx cf data peer in
  put octx';;
  emit (ev_Curl_ossl_ctx_init r);;
  ret r.

Definition Curl_gtls_ctx_init (cf : Curl_cfilter) (data : Curl_easy)
  (peer : ssl_peer) : M gtls_ctx CURLcode :=
  gctx <- get;;
  tr <- history;;
  let '(r, gctx') := x_Curl_gtls_ctx_init X tr gctx cf data peer in
  put gctx';;
  emit (ev_Curl_gtls_ctx_init r);;
  ret r.

Definition Curl_ssl_setup_x509_store {S} (cf : Curl_cfilter)
  (data : Curl_easy) (c : option handle) : M S CURLcode :=
  tr <- history;;
  let r := x_Curl_ssl_setup_x509_store X tr cf data c in
  emit (ev_Curl_ssl_setup_x509_store c r);;
  ret r.

Definition Curl_gtls_client_trust_setup (cf : Curl_cfilter)
  (data : Curl_easy) : M gtls_ctx CURLcode :=
  gctx <- get;;
  tr <- history;;
  let '(r, gctx') := x_Curl_gtls_client_trust_setup X tr cf data gctx in
  put gctx';;
  emit (ev_Curl_gtls_client_trust_setup r);;
  ret r.

Definition Curl_oss_check_peer_cert (cf : Curl_cfilter) (data : Curl_easy)
  (peer : ssl_peer) : M ossl_ctx CURLcode :=
  octx <- get;;
  tr <- history;;
  let '(r, octx') := x_Curl_oss_check_peer_cert X tr cf data octx peer in
  put octx';;
  emit (ev_Curl_oss_check_peer_cert r);;
  ret r.

Definition Curl_gtls_verifyserver {S} (data : Curl_easy)
  (s : option handle) (config : ssl_primary_config) (peer : ssl_peer)
  (pinned : option string) : M S CURLcode :=
  tr <- history;;
  let r := x_Curl_gtls_verifyserver X tr data s config peer pinned in
  emit (ev_Curl_gtls_verifyserver s r);;
  ret r.

(** *** curl_wssl_init_ctx *)

Definition curl_wssl_init_ctx (cf : Curl_cfilter) (data : Curl_easy)
  (cb_setup : option Curl_vquic_tls_ctx_setup) : M wssl_ctx CURLcode :=
  result <- landing (
    match Curl_ssl_cf_get_primary_config cf with
    | None => early CURLE_FAILED_INIT
    | Some conn_config =>
      p <- wolfSSL_CTX_new;;
      ctx <- get;;
      put {| ssl_ctx := p; ssl := ssl ctx |};;
      match p with
      | None => early CURLE_OUT_OF_MEMORY
      | Some c =>
        match cb_setup with
        | Some cb =>
            result <- call_cb_setup cb;;
            if failed result then early result else ret tt
        | None => ret tt
        end;;
        wolfSSL_CTX_set_default_verify_paths c;;
        rc <- wolfSSL_CTX_set_cipher_list c
                (or_default (cipher_list13 conn_config) QUIC_CIPHERS);;
        (if negb (rc =? 1)%Z then
           error_buffer <- ERR_error_string_n 256;;
           failf ("wolfSSL failed to set ciphers: " ++ error_buffer);;
           early CURLE_BAD_FUNCTION_ARGUMENT
         else ret tt);;
        rc <- wolfSSL_CTX_set1_groups_list c
                (or_default (curves conn_config) QUIC_GROUPS);;
        (if negb (rc =? 1)%Z then
           failf "wolfSSL failed to set curves";;
           early CURLE_BAD_FUNCTION_ARGUMENT
         else ret tt);;
        (* Open the file if a TLS or QUIC backend has not done this
           before. *)
        Curl_tls_keylog_open;;
        enabled <- Curl_tls_keylog_enabled;;
        (if enabled then
           if HAVE_SECRET_CALLBACK F then
             wolfSSL_CTX_set_keylog_callback c
           else
             failf "wolfSSL was built without keylog callback";;
             early CURLE_NOT_BUILT_IN
         else ret tt);;
        (if verifypeer conn_config then
           let ssl_cafile := CAfile conn_config in
           let ssl_capath := CApath conn_config in
           wolfSSL_CTX_set_verify c SSL_VERIFY_PEER;;
           if negb (is_null ssl_cafile) || negb (is_null ssl_capath) then
             rc <- wolfSSL_CTX_load_verify_locations_ex c ssl_cafile
                     ssl_capath WOLFSSL_LOAD_FLAG_IGNORE_ERR;;
             (if negb (SSL_SUCCESS =? rc)%Z then
                (* Fail if we insist on successfully verifying the
                   server. *)
                failf ("error setting certificate verify locations:"
                       ++ "  CAfile: " ++ or_default ssl_cafile "none"
                       ++ " CApath: " ++ or_default ssl_capath "none");;
                early CURLE_SSL_CACERT_BADFILE
              else ret tt);;
             infof (" CAfile: " ++ or_default ssl_cafile "none");;
             infof (" CApath: " ++ or_default ssl_capath "none")
           else
             when (CURL_CA_FALLBACK F)
                  (wolfSSL_CTX_set_default_verify_paths c)
         else
           wolfSSL_CTX_set_verify c SSL_VERIFY_NONE);;
        (* give application a chance to interfere with SSL set up. *)
        match fsslctx data with
        | Some cb =>
            Curl_set_in_callback true;;
            result <- call_fsslctx cb c;;
            Curl_set_in_callback false;;
            if failed result then
              failf "error signaled by ssl ctx callback";;
              early result
            else ret tt
        | None => ret tt
        end;;
        ret CURLE_OK
      end
    end);;
  (* out: *)
  ctx <- get;;
  match ssl_ctx ctx with
  | Some c =>
      when (failed result)
           (SSL_CTX_free c;;
            put {| ssl_ctx := None; ssl := ssl ctx |})
  | None => ret tt
  end;;
  ret result.

(** *** curl_wssl_init_ssl *)

Definition curl_wssl_init_ssl (data : Curl_easy) (peer : ssl_peer)
  (alpn : option string) (alpn_len : nat) (user_data : option handle)
  : M wssl_ctx CURLcode :=
  ctx <- get;;
  DEBUGASSERT (is_null (ssl ctx));;
  DEBUGASSERT (negb (is_null (ssl_ctx ctx)));;
  s <- wolfSSL_new (ssl_ctx ctx);;
  put {| ssl_ctx := ssl_ctx ctx; ssl := s |};;
  emit (ev_set_app_data s user_data);;
  emit (ev_set_connect_state s);;
  emit (ev_set_quic_use_legacy_codepoint s 0);;
  match alpn with
  | Some protos => emit (ev_set_alpn_protos s protos (to_int alpn_len))
  | None => ret tt
  end;;
  match sni peer with
  | Some name =>
      emit (ev_UseSNI s name (to_ushort (String.length name)))
  | None => ret tt
  end;;
  ret CURLE_OK.

(** *** The four entry points *)

Definition Curl_vquic_tls_init (b : tls_backend) (cf : Curl_cfilter)
  (data : Curl_easy) (peer : ssl_peer) (alpn : option string)
  (alpn_len : nat) (cb_setup : option Curl_vquic_tls_ctx_setup)
  (ssl_user_data : option handle) : M (curl_tls_ctx b) CURLcode :=
  match b return M (curl_tls_ctx b) CURLcode with
  | USE_OPENSSL => Curl_ossl_ctx_init cf data peer
  | USE_GNUTLS => Curl_gtls_ctx_init cf data peer
  | USE_WOLFSSL =>
      landing (
        result <- curl_wssl_init_ctx cf data cb_setup;;
        (if failed result then early result else ret tt);;
        curl_wssl_init_ssl data peer alpn alpn_len ssl_user_data)
  end.

Definition Curl_vquic_tls_cleanup (b : tls_backend)
  : M (curl_tls_ctx b) unit :=
  match b return M (curl_tls_ctx b) unit with
  | USE_OPENSSL =>
      ctx <- get;;
      match ossl_ssl ctx with Some s => SSL_free s | None => ret tt end;;
      match ossl_ssl_ctx ctx with
      | Some c => SSL_CTX_free c
      | None => ret tt
      end
  | USE_GNUTLS =>
      ctx <- get;;
      match cred ctx with
      | Some c => emit (ev_gnutls_certificate_free_credentials c)
      | None => ret tt
      end;;
      match session ctx with
      | Some s => emit (ev_gnutls_deinit s)
      | None => ret tt
      end
  | USE_WOLFSSL =>
      ctx <- get;;
      match ssl ctx with Some s => SSL_free s | None => ret tt end;;
      match ssl_ctx ctx with
      | Some c => SSL_CTX_free c
      | None => ret tt
      end
  end;;
  put (zeroed b).

Definition Curl_vquic_tls_before_recv (b : tls_backend)
  (cf : Curl_cfilter) (data : Curl_easy) : M (curl_tls_ctx b) CURLcode :=
  landing (
    match b return M (curl_tls_ctx b) unit with
    | USE_OPENSSL =>
        ctx <- get;;
        if negb (x509_store_setup ctx) then
          result <- Curl_ssl_setup_x509_store cf data (ossl_ssl_ctx ctx);;
          (if failed result then early result else ret tt);;
          ctx <- get;;
          put {| ossl_ssl_ctx := ossl_ssl_ctx ctx;
                 ossl_ssl := ossl_ssl ctx;
                 x509_store_setup := true |}
        else ret tt
    | USE_GNUTLS =>
        ctx <- get;;
        if negb (trust_setup ctx) then
          result <- Curl_gtls_client_trust_setup cf data;;
          if failed result then early result else ret tt
        else ret tt
    | USE_WOLFSSL => ret tt
    end;;
    ret CURLE_OK).

Definition Curl_vquic_tls_verify_peer (b : tls_backend)
  (cf : Curl_cfilter) (data : Curl_easy) (peer : ssl_peer)
  : M (curl_tls_ctx b) CURLcode :=
  landing (
    match Curl_ssl_cf_get_primary_config cf with
    | None => early CURLE_FAILED_INIT
    | Some conn_config =>
      result <-
        match b return M (curl_tls_ctx b) CURLcode with
        | USE_OPENSSL => Curl_oss_check_peer_cert cf data peer
        | USE_GNUTLS =>
            if verifyhost conn_config then
              ctx <- get;;
              result <- Curl_gtls_verifyserver data (session ctx)
                          conn_config peer
                          (STRING_SSL_PINNEDPUBLICKEY data);;
              if failed result then early result else ret result
            else ret CURLE_OK
        | USE_WOLFSSL =>
            (if verifyhost conn_config then
               ctx <- get;;
               match sni peer with
               | None => early CURLE_PEER_FAILED_VERIFICATION
               | Some name =>
                   rc <- wolfSSL_check_domain_name (ssl ctx) name;;
                   if (rc =? SSL_FAILURE)%Z
                   then early CURLE_PEER_FAILED_VERIFICATION
                   else ret tt
               end
             else ret tt);;
            ret CURLE_OK
        end;;
      ret result
    end).
End Code.

Local Open Scope list_scope.

(** ** Resource accounting on a history *)

(** Number of backend contexts that [wolfSSL_CTX_new] handed out and that
    have not been given back. *)
Fixpoint ctx_count (tr : trace) : Z :=
  match tr with
  | [] => 0
  | ev_wolfSSL_CTX_new (Some _) :: tr' => ctx_count tr' + 1
  | ev_SSL_CTX_free _ :: tr' => ctx_count tr' - 1
  | _ :: tr' => ctx_count tr'
  end.

(** The same for sessions. *)
Fixpoint ssl_count (tr : trace) : Z :=
  match tr with
  | [] => 0
  | ev_wolfSSL_new _ (Some _) :: tr' => ssl_count tr' + 1
  | ev_SSL_free _ :: tr' => ssl_count tr' - 1
  | _ :: tr' => ssl_count tr'
  end.

(** Sessions created in a history. *)
Fixpoint sessions_created (tr : trace) : nat :=
  match tr with
  | [] => 0
  | ev_wolfSSL_new _ _ :: tr' => S (sessions_created tr')
  | _ :: tr' => sessions_created tr'
  end.

(** Runs of a trust-store routine that ended well. *)
Fixpoint trust_setups_done (tr : trace) : nat :=
  match tr with
  | [] => 0
  | ev_Curl_ssl_setup_x509_store _ CURLE_OK :: tr' =>
      S (trust_setups_done tr')
  | ev_Curl_gtls_client_trust_setup CURLE_OK :: tr' =>
      S (trust_setups_done tr')
  | _ :: tr' => trust_setups_done tr'
  end.

(** The event of the transport's hook, if there is a hook. *)
Definition cb_setup_events (cb : option Curl_vquic_tls_ctx_setup)
  (tr : trace) : list event :=
  match cb with Some f => [ev_cb_setup (f tr)] | None => [] end.

Definition cb_setup_passes (cb : option Curl_vquic_tls_ctx_setup)
  (tr : trace) : Prop :=
  match cb with Some f => f tr = CURLE_OK | None => True end.

(** Colon-separated lists, as the TLS libraries read them. *)
Fixpoint split_colon (s : string) : list string :=
  match s with
  | EmptyString => [EmptyString]
  | String c rest =>
      if Ascii.eqb c ":"%char then EmptyString :: split_colon rest
      else match split_colon rest with
           | [] => [String c EmptyString]
           | w :: ws => String c w :: ws
           end
  end.

(** A concrete setting for closed examples: a wolfSSL build without the
    secret callback and a connection that verifies peer and host against
    a CA file. *)
Module Fixture.
(** A library with its answers fixed in advance: what the setters of
    cipher list, group list and CA locations return, whether key logging
    is on, whether there is memory for a session, and how often the
    OpenSSL trust store fails before it can be set up.  The server's
    certificate is one for example.test. *)
Definition library (ciphers groups locations : Z) (keylog sessions : bool)
  (store_failures : nat) : externals := {|
  x_wolfSSL_CTX_new := fun _ => true;
  x_wolfSSL_CTX_set_cipher_list := fun _ _ _ => ciphers;
  x_ERR_error_string := fun _ => "error:0A0000B9:no cipher match";
  x_wolfSSL_CTX_set1_groups_list := fun _ _ _ => groups;
  x_Curl_tls_keylog_enabled := fun _ => keylog;
  x_wolfSSL_CTX_load_verify_locations_ex := fun _ _ _ _ => locations;
  x_wolfSSL_new := fun _ _ => sessions;
  x_wolfSSL_check_domain_name := fun _ _ name =>
    if String.eqb name "example.test" then SSL_SUCCESS else SSL_FAILURE;
  x_Curl_ossl_ctx_init := fun _ o _ _ _ => (CURLE_OK, o);
  x_Curl_gtls_ctx_init := fun _ g _ _ _ => (CURLE_OK, g);
  x_Curl_ssl_setup_x509_store := fun tr _ _ _ =>
    if (List.length tr <? store_failures)%nat then CURLE_SSL_CACERT_BADFILE
    else CURLE_OK;
  x_Curl_gtls_client_trust_setup := fun _ _ _ g =>
    (CURLE_OK,
     {| cred := cred g; session := session g; trust_setup := true |});
  x_Curl_oss_check_peer_cert := fun _ _ _ o _ => (CURLE_OK, o);
  x_Curl_gtls_verifyserver := fun _ _ _ _ _ _ => CURLE_OK
|}.

Definition accepting : externals := library 1 1 1 false true 0.
Definition rejecting_ciphers : externals := library 0 1 1 false true 0.
Definition rejecting_groups : externals := library 1 0 1 false true 0.
Definition missing_ca : externals := library 1 1 0 false true 0.
Definition keylogging : externals := library 1 1 1 true true 0.
Definition out_of_sessions : externals := library 1 1 1 false false 0.
Definition slow_store : externals := library 1 1 1 false true 2.

Definition release : build_flags :=
  {| HAVE_SECRET_CALLBACK := false;
     CURL_CA_FALLBACK := false;
     DEBUGBUILD := false |}.

Definition debug : build_flags :=
  {| HAVE_SECRET_CALLBACK := false;
     CURL_CA_FALLBACK := false;
     DEBUGBUILD := true |}.

Definition strict : ssl_primary_config :=
  {| cipher_list13 := None; curves := None;
     verifypeer := true; verifyhost := true;
     CAfile := Some "ca.pem"; CApath := None |}.

(** [CURLOPT_SSL_VERIFYPEER] switched off, host check left on. *)
Definition no_peer_check : ssl_primary_config :=
  {| cipher_list13 := None; curves := None;
     verifypeer := false; verifyhost := true;
     CAfile := None; CApath := None |}.

Definition no_host_check : ssl_primary_config :=
  {| cipher_list13 := None; curves := None;
     verifypeer := true; verifyhost := false;
     CAfile := Some "ca.pem"; CApath := None |}.

Definition filter (c : ssl_primary_config) : Curl_cfilter :=
  {| cf_primary_config := Some c |}.

Definition unconfigured : Curl_cfilter := {| cf_primary_config := None |}.

Definition easy : Curl_easy :=
  {| fsslctx := None; STRING_SSL_PINNEDPUBLICKEY := None |}.

Definition named : ssl_peer := {| sni := Some "example.test" |}.

(** A peer given by address: curl sends no SNI for it. *)
Definition unnamed : ssl_peer := {| sni := None |}.
End Fixture.

(** [extends tr tr']: the history [tr'] is [tr] with later events added. *)
Inductive extends (tr : trace) : trace -> Prop :=
| extends_refl : extends tr tr
| extends_cons e tr' : extends tr tr' -> extends tr (e :: tr').

(** The history a context build writes while nothing goes wrong, up to
    the cipher list and up to the group list. *)
Definition after_new (tr : trace) : trace :=
  ev_wolfSSL_CTX_new (Some (fresh tr)) :: tr.

Definition after_paths (cb : option Curl_vquic_tls_ctx_setup) (tr : trace)
  : trace :=
  ev_CTX_set_default_verify_paths (fresh tr)
  :: cb_setup_events cb (after_new tr) ++ after_new tr.

Definition suites_of (conf : ssl_primary_config) : string :=
  or_default (cipher_list13 conf) QUIC_CIPHERS.

Definition cipher_rc (X : externals) (conf : ssl_primary_config)
  (cb : option Curl_vquic_tls_ctx_setup) (tr : trace) : Z :=
  x_wolfSSL_CTX_set_cipher_list X (after_paths cb tr) (fresh tr)
    (suites_of conf).

Definition after_ciphers (X : externals) (conf : ssl_primary_config)
  (cb : option Curl_vquic_tls_ctx_setup) (tr : trace) : trace :=
  ev_CTX_set_cipher_list (fresh tr) (suites_of conf) (cipher_rc X conf cb tr)
  :: after_paths cb tr.

Definition groups_rc (X : externals) (conf : ssl_primary_config)
  (cb : option Curl_vquic_tls_ctx_setup) (tr : trace) : Z :=
  x_wolfSSL_CTX_set1_groups_list X (after_ciphers X conf cb tr) (fresh tr)
    (or_default (curves conf) QUIC_GROUPS).

Definition after_groups (X : externals) (conf : ssl_primary_config)
  (cb : option Curl_vquic_tls_ctx_setup) (tr : trace) : trace :=
  ev_CTX_set1_groups_list (fresh tr) (or_default (curves conf) QUIC_GROUPS)
    (groups_rc X conf cb tr)
  :: after_ciphers X conf cb tr.

(** ** What cleanup is to release *)

Definition opt_event (f : handle -> event) (p : option handle)
  : list event :=
  match p with Some h => [f h] | None => [] end.

(** The library calls that give back what a structure holds, in the order
    of time. *)
Definition releases (b : tls_backend) : curl_tls_ctx b -> list event :=
  match b return curl_tls_ctx b -> list event with
  | USE_OPENSSL => fun c =>
      opt_event ev_SSL_free (ossl_ssl c)
      ++ opt_event ev_SSL_CTX_free (ossl_ssl_ctx c)
  | USE_GNUTLS => fun c =>
      opt_event ev_gnutls_certificate_free_credentials (cred c)
      ++ opt_event ev_gnutls_deinit (session c)
  | USE_WOLFSSL => fun c =>
      opt_event ev_SSL_free (ssl c) ++ opt_event ev_SSL_CTX_free (ssl_ctx c)
  end.

Definition owned (p : option handle) : Z :=
  match p with Some _ => 1%Z | None => 0%Z end.

(** The states one wolfSSL connection attempt can be in, and the history
    that led there from [tr0]: the zeroed structure, then any sequence of
    the four entry points, with Curl_vquic_tls_init only on a zeroed
    structure. *)
Inductive lifecycle (X : externals) (F : build_flags) (tr0 : trace)
  : wssl_ctx -> trace -> Prop :=
| life_start : lifecycle X F tr0 (zeroed USE_WOLFSSL) tr0
| life_init cf data peer alpn alpn_len cb ud tr r ctx' tr' :
    lifecycle X F tr0 (zeroed USE_WOLFSSL) tr ->
    Curl_vquic_tls_init X F USE_WOLFSSL cf data peer alpn alpn_len cb ud
      (zeroed USE_WOLFSSL) tr = Ret r ctx' tr' ->
    lifecycle X F tr0 ctx' tr'
| life_before_recv cf data ctx tr r ctx' tr' :
    lifecycle X F tr0 ctx tr ->
    Curl_vquic_tls_before_recv X USE_WOLFSSL cf data ctx tr
    = Ret r ctx' tr' ->
    lifecycle X F tr0 ctx' tr'
| life_verify_peer cf data peer ctx tr r ctx' tr' :
    lifecycle X F tr0 ctx tr ->
    Curl_vquic_tls_verify_peer X USE_WOLFSSL cf data peer ctx tr
    = Ret r ctx' tr' ->
    lifecycle X F tr0 ctx' tr'
| life_cleanup ctx tr ctx' tr' :
    lifecycle X F tr0 ctx tr ->
    Curl_vquic_tls_cleanup USE_WOLFSSL ctx tr = Ret tt ctx' tr' ->
    lifecycle X F tr0 ctx' tr'.

(** ** Repeated trust setup *)

(** The flag that remembers a finished trust setup; the wolfSSL members
    of the structure have none. *)
Definition ready_flag (b : tls_backend) : curl_tls_ctx b -> option bool :=
  match b return curl_tls_ctx b -> option bool with
  | USE_OPENSSL => fun c => Some (x509_store_setup c)
  | USE_GNUTLS => fun c => Some (trust_setup c)
  | USE_WOLFSSL => fun _ => None
  end.

(** The structure and the history a call leaves behind. *)
Definition after {S A} (o : outcome S A) (st : S * trace) : S * trace :=
  match o with
  | Ret _ s tr | Early _ s tr => (s, tr)
  | Abort tr => (fst st, tr)
  end.

(** [n] calls of Curl_vquic_tls_before_recv in a row, whatever each of
    them returns. *)
Fixpoint before_recv_times (X : externals) (b : tls_backend)
  (cf : Curl_cfilter) (data : Curl_easy) (n : nat)
  (st : curl_tls_ctx b * trace) : curl_tls_ctx b * trace :=
  match n with
  | O => st
  | S k =>
      before_recv_times X b cf data k
        (after (Curl_vquic_tls_before_recv X b cf data (fst st) (snd st)) st)
  end.

(** What this file relies on in Curl_gtls_client_trust_setup, which is
    handed [&ctx->gtls]: a run that succeeds sets [trust_setup]. *)
Definition gtls_marks_ready (X : externals) : Prop :=
  forall tr cf data g,
    fst (x_Curl_gtls_client_trust_setup X tr cf data g) = CURLE_OK ->
    trust_setup (snd (x_Curl_gtls_client_trust_setup X tr cf data g)) = true.

(** ** Peer verification as the design document words it *)

(** "If verify_peer=false is configured, verify_peer() always returns
    success", read on the code: the flag is [verifypeer]. *)
Definition verifypeer_off_always_passes : Prop :=
  forall X b cf data peer conf (ctx : curl_tls_ctx b) tr,
    Curl_ssl_cf_get_primary_config cf = Some conf ->
    verifypeer conf = false ->
    exists ctx' tr',
      Curl_vquic_tls_verify_peer X b cf data peer ctx tr
      = Ret CURLE_OK ctx' tr'.

(** "If host verification is enabled and no hostname was supplied,
    verification fails rather than silently passing", read on the code
    for whatever build: [verifyhost] is set, [peer->sni] is NULL, and the
    result is some failure. *)
Definition missing_sni_always_fails : Prop :=
  forall X b cf data peer conf (ctx : curl_tls_ctx b) tr,
    Curl_ssl_cf_get_primary_config cf = Some conf ->
    verifyhost conf = true ->
    sni peer = None ->
    exists r ctx' tr',
      Curl_vquic_tls_verify_peer X b cf data peer ctx tr = Ret r ctx' tr'
      /\ r <> CURLE_OK.

(** ** The events one call adds *)

(** [added tr d tr']: the call that started at history [tr] and ended at
    [tr'] wrote the events [d], newest first. *)
Inductive added (tr : trace) : list event -> trace -> Prop :=
| added_none : added tr [] tr
| added_one e d tr' : added tr d tr' -> added tr (e :: d) (e :: tr').

(** The in-callback mark of the easy handle, as the last
    [Curl_set_in_callback] left it. *)
Fixpoint in_callback (tr : trace) : bool :=
  match tr with
  | [] => false
  | ev_set_in_callback on :: _ => on
  | _ :: tr' => in_callback tr'
  end.

(** How often the default verify paths were set. *)
Fixpoint default_paths_set (d : list event) : nat :=
  match d with
  | [] => 0
  | ev_CTX_set_default_verify_paths _ :: d' => S (default_paths_set d')
  | _ :: d' => default_paths_set d'
  end.

(** An easy handle whose application hook answers [r]. *)
Definition hooked (r : CURLcode) : Curl_easy :=
  {| fsslctx := Some (fun _ _ => r); STRING_SSL_PINNEDPUBLICKEY := None |}.

(** A connection that verifies the peer and names no CA file or path. *)
Definition anchorless : ssl_primary_config :=
  {| cipher_list13 := None; curves := Some "X25519";
     verifypeer := true; verifyhost := true;
     CAfile := None; CApath := None |}.

(** A GnuTLS helper that sets the trust up and leaves the structure as
    it found it. *)
Definition forgetful_gnutls : externals := {|
  x_wolfSSL_CTX_new := x_wolfSSL_CTX_new Fixture.accepting;
  x_wolfSSL_CTX_set_cipher_list :=
    x_wolfSSL_CTX_set_cipher_list Fixture.accepting;
  x_ERR_error_string := x_ERR_error_string Fixture.accepting;
  x_wolfSSL_CTX_set1_groups_list :=
    x_wolfSSL_CTX_set1_groups_list Fixture.accepting;
  x_Curl_tls_keylog_enabled := x_Curl_tls_keylog_enabled Fixture.accepting;
  x_wolfSSL_CTX_load_verify_locations_ex :=
    x_wolfSSL_CTX_load_verify_locations_ex Fixture.accepting;
  x_wolfSSL_new := x_wolfSSL_new Fixture.accepting;
  x_wolfSSL_check_domain_name :=
    x_wolfSSL_check_domain_name Fixture.accepting;
  x_Curl_ossl_ctx_init := x_Curl_ossl_ctx_init Fixture.accepting;
  x_Curl_gtls_ctx_init := x_Curl_gtls_ctx_init Fixture.accepting;
  x_Curl_ssl_setup_x509_store :=
    x_Curl_ssl_setup_x509_store Fixture.accepting;
  x_Curl_gtls_client_trust_setup := fun _ _ _ g => (CURLE_OK, g);
  x_Curl_oss_check_peer_cert := x_Curl_oss_check_peer_cert Fixture.accepting;
  x_Curl_gtls_verifyserver := x_Curl_gtls_verifyserver Fixture.accepting
|}.

(** ** Proof tools *)

Lemma failed_false_iff r : failed r = false <-> r = CURLE_OK.
Proof. destruct r; simpl; split; congruence. Qed.

Lemma failed_true_iff r : failed r = true <-> r <> CURLE_OK.
Proof. destruct r; simpl; split; congruence. Qed.

Ltac unfold_calls :=
  unfold curl_wssl_init_ctx, curl_wssl_init_ssl, Curl_vquic_tls_init,
    Curl_vquic_tls_cleanup, Curl_vquic_tls_before_recv,
    Curl_vquic_tls_verify_peer, Curl_ssl_cf_get_primary_config,
    DEBUGASSERT, failf, infof, wolfSSL_CTX_new, call_cb_setup,
    wolfSSL_CTX_set_default_verify_paths, wolfSSL_CTX_set_cipher_list,
    ERR_error_string_n, wolfSSL_CTX_set1_groups_list, Curl_tls_keylog_open,
    Curl_tls_keylog_enabled, wolfSSL_CTX_set_keylog_callback,
    wolfSSL_CTX_set_verify, wolfSSL_CTX_load_verify_locations_ex,
    Curl_set_in_callback, call_fsslctx, SSL_CTX_free, SSL_free, wolfSSL_new,
    wolfSSL_check_domain_name, Curl_ossl_ctx_init, Curl_gtls_ctx_init,
    Curl_ssl_setup_x509_store, Curl_gtls_client_trust_setup,
    Curl_oss_check_peer_cert, Curl_gtls_verifyserver,
    when, landing, bind, ret, get, put, history, emit, early, assert_failed.

(** Split on the scrutinee of the outermost pending test. *)
Ltac split_test :=
  match goal with
  | |- context [match ?x with _ => _ end] =>
      lazymatch x with
      | context [match _ with _ => _ end] => fail
      | _ => destruct x eqn:?
      end
  end.

(** Run the code symbolically, one test at a time.  Comparisons of
    integers and the texts of messages stay folded. *)
Ltac step := cbn -[Z.eqb String.append substring fresh]; try split_test.
Ltac run_code := unfold_calls; repeat step.

(** A code that failed the test [if(result)] is not [CURLE_OK]. *)
Ltac code_facts :=
  repeat match goal with
  | H : failed _ = true |- _ => apply failed_true_iff in H
  | H : failed _ = false |- _ => apply failed_false_iff in H
  end;
  try match goal with
  | H : _ <> CURLE_OK, E : _ = CURLE_OK |- _ => exfalso; exact (H E)
  end.

(** What a test on a field just written found. *)
Ltac field_facts :=
  repeat match goal with
  | H : ssl_ctx (Build_wssl_ctx _ _) = _ |- _ =>
      cbn in H; first [ discriminate H | injection H as <- ]
  | H : ssl (Build_wssl_ctx _ _) = _ |- _ =>
      cbn in H; first [ discriminate H | injection H as <- ]
  end.

Ltac grows := repeat first [ apply extends_refl | apply extends_cons ].

Ltac unfold_path :=
  unfold after_groups, groups_rc, after_ciphers, cipher_rc, suites_of,
    after_paths, after_new, cb_setup_events, cb_setup_passes in *.

Ltac z_facts :=
  repeat match goal with
  | H : negb (_ =? _)%Z = true |- _ =>
      apply negb_true_iff in H; apply Z.eqb_neq in H
  | H : negb (_ =? _)%Z = false |- _ =>
      apply negb_false_iff in H; apply Z.eqb_eq in H
  | H : (_ =? _)%Z = true |- _ => apply Z.eqb_eq in H
  | H : (_ =? _)%Z = false |- _ => apply Z.eqb_neq in H
  end.

(** ** Context construction leaves nothing behind when it fails *)

Lemma curl_wssl_init_ctx_returns X F cf data cb ctx tr :
  exists r ctx' tr',
    curl_wssl_init_ctx X F cf data cb ctx tr = Ret r ctx' tr'
    /\ ssl ctx' = ssl ctx
    /\ sessions_created tr' = sessions_created tr
    /\ (r = CURLE_OK ->
        ssl_ctx ctx' = Some (fresh tr)
        /\ ctx_count tr' = (ctx_count tr + 1)%Z)
    /\ (r <> CURLE_OK ->
        ssl_ctx ctx' = None
        /\ (ssl_ctx ctx = None -> ctx_count tr' = ctx_count tr)).
Proof.
  destruct ctx as [c0 s0].
  run_code.
  all: do 3 eexists; split; [ reflexivity | ].
  all: cbn -[Z.eqb String.append substring fresh]; repeat split; intros;
    code_facts; try congruence; try lia.
Qed.

(** C5.  Whatever makes curl_wssl_init_ctx fail (no configuration, no
    memory, the transport's hook, the cipher list, the group list, key
    logging without callback support, the CA locations, the application's
    hook), it returns with [ctx->ssl_ctx] NULL; a context that had been
    allocated by then is freed as the very last call before the return,
    and the number of live contexts is the one the call started with. *)
Theorem init_ctx_failure_leaves_no_context X F cf data cb ctx tr :
  exists r ctx' tr',
    curl_wssl_init_ctx X F cf data cb ctx tr = Ret r ctx' tr'
    /\ (r <> CURLE_OK ->
        ssl_ctx ctx' = None
        /\ ssl ctx' = ssl ctx
        /\ (ssl_ctx ctx = None -> ctx_count tr' = ctx_count tr)
        /\ (Curl_ssl_cf_get_primary_config cf <> None ->
            x_wolfSSL_CTX_new X tr = true ->
            extends (after_new tr) tr'
            /\ hd_error tr' = Some (ev_SSL_CTX_free (fresh tr)))).
Proof.
  destruct ctx as [c0 s0].
  unfold_path.
  run_code.
  all: do 3 eexists; split; [ reflexivity | ].
  all: cbn -[Z.eqb String.append substring fresh]; intros; code_facts;
    repeat split; intros; try congruence; try lia; grows.
Qed.

(** Three of the failure paths, call by call: the transport's hook
    refuses, wolfSSL refuses the group list, the CA file cannot be
    loaded. *)
Example failed_hook_frees_context :
  curl_wssl_init_ctx Fixture.accepting Fixture.release
    (Fixture.filter Fixture.strict) Fixture.easy
    (Some (fun _ => CURLE_FAILED_INIT)) (zeroed USE_WOLFSSL) [] =
  Ret CURLE_FAILED_INIT (zeroed USE_WOLFSSL)
    [ ev_SSL_CTX_free 0;
      ev_cb_setup CURLE_FAILED_INIT;
      ev_wolfSSL_CTX_new (Some 0) ].
Proof. reflexivity. Qed.

Example bad_groups_free_context :
  curl_wssl_init_ctx Fixture.rejecting_groups Fixture.release
    (Fixture.filter Fixture.strict) Fixture.easy None
    (zeroed USE_WOLFSSL) [] =
  Ret CURLE_BAD_FUNCTION_ARGUMENT (zeroed USE_WOLFSSL)
    [ ev_SSL_CTX_free 0;
      ev_failf "wolfSSL failed to set curves";
      ev_CTX_set1_groups_list 0 QUIC_GROUPS 0;
      ev_CTX_set_cipher_list 0 QUIC_CIPHERS 1;
      ev_CTX_set_default_verify_paths 0;
      ev_wolfSSL_CTX_new (Some 0) ].
Proof. reflexivity. Qed.

Example missing_ca_frees_context :
  curl_wssl_init_ctx Fixture.missing_ca Fixture.release
    (Fixture.filter Fixture.strict) Fixture.easy None
    (zeroed USE_WOLFSSL) [] =
  Ret CURLE_SSL_CACERT_BADFILE (zeroed USE_WOLFSSL)
    [ ev_SSL_CTX_free 0;
      ev_failf
        ("error setting certificate verify locations:"
         ++ "  CAfile: ca.pem CApath: none")%string;
      ev_CTX_load_verify_locations 0 (Some "ca.pem") None
        WOLFSSL_LOAD_FLAG_IGNORE_ERR 0;
      ev_CTX_set_verify 0 SSL_VERIFY_PEER;
      ev_keylog_open;
      ev_CTX_set1_groups_list 0 QUIC_GROUPS 1;
      ev_CTX_set_cipher_list 0 QUIC_CIPHERS 1;
      ev_CTX_set_default_verify_paths 0;
      ev_wolfSSL_CTX_new (Some 0) ].
Proof. reflexivity. Qed.

(** ** The cipher list *)

(** C6.  Once the context exists and the transport's hook has passed,
    the default verify paths are set and the cipher list is applied right
    after them: [conn_config->cipher_list13] when it is there, the four
    TLS 1.3 AEAD suites of [QUIC_CIPHERS] otherwise.  When wolfSSL does
    not answer 1, the build ends with [CURLE_BAD_FUNCTION_ARGUMENT] after
    a [failf] that carries wolfSSL's error text as it fits the 256-byte
    buffer. *)
Theorem init_ctx_applies_cipher_list X F cf data cb ctx tr conf :
  Curl_ssl_cf_get_primary_config cf = Some conf ->
  x_wolfSSL_CTX_new X tr = true ->
  cb_setup_passes cb (after_new tr) ->
  (exists r ctx' tr',
      curl_wssl_init_ctx X F cf data cb ctx tr = Ret r ctx' tr'
      /\ extends (after_ciphers X conf cb tr) tr')
  /\ (cipher_rc X conf cb tr <> 1%Z ->
      curl_wssl_init_ctx X F cf data cb ctx tr =
      Ret CURLE_BAD_FUNCTION_ARGUMENT
        {| ssl_ctx := None; ssl := ssl ctx |}
        (ev_SSL_CTX_free (fresh tr)
         :: ev_failf
              ("wolfSSL failed to set ciphers: "
               ++ substring 0 255
                    (x_ERR_error_string X (after_ciphers X conf cb tr)))%string
         :: after_ciphers X conf cb tr))
  /\ (cipher_list13 conf = None -> suites_of conf = QUIC_CIPHERS)
  /\ (forall s, cipher_list13 conf = Some s -> suites_of conf = s)
  /\ split_colon QUIC_CIPHERS =
     [ "TLS_AES_128_GCM_SHA256"; "TLS_AES_256_GCM_SHA384";
       "TLS_CHACHA20_POLY1305_SHA256"; "TLS_AES_128_CCM_SHA256" ].
Proof.
  intros Hconf Hnew Hcb.
  destruct ctx as [c0 s0].
  unfold Curl_ssl_cf_get_primary_config in Hconf.
  split; [ | split; [ | split; [ | split; [ | reflexivity ] ] ] ].
  - unfold_path. destruct cb as [f | ].
    all: unfold_calls; rewrite Hconf; cbn -[Z.eqb String.append substring fresh];
      rewrite Hnew; cbn -[Z.eqb String.append substring fresh];
      try rewrite Hcb; repeat step.
    all: do 3 eexists; split; [ reflexivity | ]; grows.
  - intros Hrc. unfold_path. destruct cb as [f | ].
    all: unfold_calls; rewrite Hconf; cbn -[Z.eqb String.append substring fresh];
      rewrite Hnew; cbn -[Z.eqb String.append substring fresh];
      try rewrite Hcb; cbn -[Z.eqb String.append substring fresh].
    all: apply Z.eqb_neq in Hrc; try rewrite Hcb in Hrc;
      cbn -[Z.eqb String.append substring fresh] in Hrc; rewrite Hrc.
    all: reflexivity.
  - unfold suites_of. intros ->. reflexivity.
  - unfold suites_of. intros s ->. reflexivity.
Qed.

(** The cipher list of a rejecting library: the build stops right there. *)
Lemma init_ctx_applies_cipher_list_witness :
  curl_wssl_init_ctx Fixture.rejecting_ciphers Fixture.release
    (Fixture.filter Fixture.strict) Fixture.easy None
    (zeroed USE_WOLFSSL) [] =
  Ret CURLE_BAD_FUNCTION_ARGUMENT {| ssl_ctx := None; ssl := None |}
    [ ev_SSL_CTX_free 0;
      ev_failf
        "wolfSSL failed to set ciphers: error:0A0000B9:no cipher match";
      ev_CTX_set_cipher_list 0 QUIC_CIPHERS 0;
      ev_CTX_set_default_verify_paths 0;
      ev_wolfSSL_CTX_new (Some 0) ].
Proof.
  refine (proj1 (proj2
    (init_ctx_applies_cipher_list Fixture.rejecting_ciphers Fixture.release
       (Fixture.filter Fixture.strict) Fixture.easy None
       (zeroed USE_WOLFSSL) [] Fixture.strict eq_refl eq_refl I)) _).
  vm_compute. discriminate.
Defined.

(** ** Key logging *)

(** Curl_vquic_tls_init hands a failure of the context build through and
    does not get to curl_wssl_init_ssl. *)
Lemma init_stops_on_ctx_failure X F cf data peer alpn alpn_len cb ud
  ctx tr r ctx' tr' :
  curl_wssl_init_ctx X F cf data cb ctx tr = Ret r ctx' tr' ->
  r <> CURLE_OK ->
  Curl_vquic_tls_init X F USE_WOLFSSL cf data peer alpn alpn_len cb ud
    ctx tr = Ret r ctx' tr'.
Proof.
  intros Hrun Hr.
  unfold Curl_vquic_tls_init, landing, bind.
  rewrite Hrun.
  apply failed_true_iff in Hr. rewrite Hr.
  reflexivity.
Qed.

Lemma init_ctx_keylog_unsupported X F cf data cb ctx tr :
  HAVE_SECRET_CALLBACK F = false ->
  (forall h, x_Curl_tls_keylog_enabled X h = true) ->
  exists r ctx' tr',
    curl_wssl_init_ctx X F cf data cb ctx tr = Ret r ctx' tr'
    /\ r <> CURLE_OK
    /\ ssl_ctx ctx' = None
    /\ sessions_created tr' = sessions_created tr
    /\ (forall conf,
        Curl_ssl_cf_get_primary_config cf = Some conf ->
        x_wolfSSL_CTX_new X tr = true ->
        cb_setup_passes cb (after_new tr) ->
        cipher_rc X conf cb tr = 1%Z ->
        groups_rc X conf cb tr = 1%Z ->
        r = CURLE_NOT_BUILT_IN
        /\ tr' =
           ev_SSL_CTX_free (fresh tr)
           :: ev_failf "wolfSSL was built without keylog callback"
           :: ev_keylog_open
           :: after_groups X conf cb tr).
Proof.
  intros Hflag Hlog.
  destruct ctx as [c0 s0].
  unfold_path. unfold Curl_ssl_cf_get_primary_config.
  destruct cb as [f | ].
  all: unfold_calls; rewrite Hflag.
  all: repeat (cbn -[Z.eqb String.append substring fresh];
               try rewrite Hlog; try split_test).
  all: field_facts.
  all: do 3 eexists; split; [ reflexivity | ].
  all: cbn -[Z.eqb String.append substring fresh].
  all: code_facts; z_facts.
  all: repeat match goal with |- _ /\ _ => split end;
    try congruence; try reflexivity.
  all: try assumption.
  all: try (intros Hbad; discriminate Hbad).
  all: intros conf Hconf Hnew Hcb Hc Hg;
    try discriminate; try congruence.
  all: try (replace s with conf in * by congruence).
  all: try (rewrite Hcb in *); try contradiction.
  all: split; reflexivity.
Qed.

(** C7.  With key logging switched on and a wolfSSL that has no keylog
    callback, curl_wssl_init_ctx never answers CURLE_OK: the context is
    gone when it returns, Curl_vquic_tls_init returns the same failure
    and no session is created.  When the build gets as far as the key
    log, the failure is CURLE_NOT_BUILT_IN, reported by [failf] right
    after [Curl_tls_keylog_open]. *)
Theorem keylog_without_callback_aborts X F cf data cb ctx tr :
  HAVE_SECRET_CALLBACK F = false ->
  (forall h, x_Curl_tls_keylog_enabled X h = true) ->
  exists r ctx' tr',
    curl_wssl_init_ctx X F cf data cb ctx tr = Ret r ctx' tr'
    /\ r <> CURLE_OK
    /\ ssl_ctx ctx' = None
    /\ (forall peer alpn alpn_len ud,
        Curl_vquic_tls_init X F USE_WOLFSSL cf data peer alpn alpn_len cb ud
          ctx tr = Ret r ctx' tr')
    /\ sessions_created tr' = sessions_created tr
    /\ (forall conf,
        Curl_ssl_cf_get_primary_config cf = Some conf ->
        x_wolfSSL_CTX_new X tr = true ->
        cb_setup_passes cb (after_new tr) ->
        cipher_rc X conf cb tr = 1%Z ->
        groups_rc X conf cb tr = 1%Z ->
        r = CURLE_NOT_BUILT_IN
        /\ tr' =
           ev_SSL_CTX_free (fresh tr)
           :: ev_failf "wolfSSL was built without keylog callback"
           :: ev_keylog_open
           :: after_groups X conf cb tr).
Proof.
  intros Hflag Hlog.
  destruct (init_ctx_keylog_unsupported X F cf data cb ctx tr Hflag Hlog)
    as (r & ctx' & tr' & Hrun & Hr & Hnull & Hsess & Hpath).
  exists r, ctx', tr'.
  repeat match goal with |- _ /\ _ => split end; auto.
  intros peer alpn alpn_len ud.
  now apply init_stops_on_ctx_failure.
Qed.

(** A default build against a key-logging process. *)
Lemma keylog_without_callback_aborts_witness :
  exists ctx' tr',
    Curl_vquic_tls_init Fixture.keylogging Fixture.release USE_WOLFSSL
      (Fixture.filter Fixture.strict) Fixture.easy Fixture.named
      (Some "h3") 2 None None (zeroed USE_WOLFSSL) [] =
    Ret CURLE_NOT_BUILT_IN ctx' tr'
    /\ ssl_ctx ctx' = None
    /\ sessions_created tr' = 0.
Proof.
  destruct (keylog_without_callback_aborts Fixture.keylogging
              Fixture.release (Fixture.filter Fixture.strict) Fixture.easy
              None (zeroed USE_WOLFSSL) [] eq_refl (fun _ => eq_refl))
    as (r & ctx' & tr' & _ & _ & Hnull & Hinit & Hsess & Hpath).
  exists ctx', tr'.
  destruct (Hpath Fixture.strict eq_refl eq_refl I eq_refl eq_refl)
    as [Hr _].
  rewrite <- Hr.
  split; [ apply Hinit | split; [ exact Hnull | exact Hsess ] ].
Defined.

(** ** The session *)

(** What curl_wssl_init_ssl does when its two assertions hold: it stores
    whatever wolfSSL_new answered and reports CURLE_OK. *)
Lemma curl_wssl_init_ssl_returns X F data peer alpn alpn_len ud c tr :
  exists tr',
    curl_wssl_init_ssl X F data peer alpn alpn_len ud
      {| ssl_ctx := Some c; ssl := None |} tr =
    Ret CURLE_OK
      {| ssl_ctx := Some c;
         ssl := if x_wolfSSL_new X tr (Some c) then Some (fresh tr)
                else None |}
      tr'
    /\ extends (ev_wolfSSL_new (Some c)
                  (if x_wolfSSL_new X tr (Some c) then Some (fresh tr)
                   else None) :: tr) tr'
    /\ ctx_count tr' = ctx_count tr
    /\ ssl_count tr' =
       (ssl_count tr + if x_wolfSSL_new X tr (Some c) then 1 else 0)%Z.
Proof.
  unfold_calls.
  destruct (DEBUGBUILD F), alpn, (sni peer).
  all: cbn -[fresh to_int to_ushort].
  all: destruct (x_wolfSSL_new X tr (Some c)).
  all: eexists; split; [ reflexivity | ].
  all: split; [ grows | split; [ reflexivity | ] ].
  all: cbn -[fresh to_int to_ushort]; lia.
Qed.

(** C3.  When wolfSSL_new has no memory for the session,
    curl_wssl_init_ssl stores the NULL it got in [ctx->ssl] and still
    returns CURLE_OK; CURLE_OUT_OF_MEMORY is not among its results.  (On
    success it stores the new session and returns CURLE_OK.) *)
Theorem init_ssl_ignores_allocation_failure X F data peer alpn alpn_len ud
  c tr :
  x_wolfSSL_new X tr (Some c) = false ->
  exists tr',
    curl_wssl_init_ssl X F data peer alpn alpn_len ud
      {| ssl_ctx := Some c; ssl := None |} tr =
    Ret CURLE_OK {| ssl_ctx := Some c; ssl := None |} tr'
    /\ extends (ev_wolfSSL_new (Some c) None :: tr) tr'.
Proof.
  intros Hnew.
  destruct (curl_wssl_init_ssl_returns X F data peer alpn alpn_len ud c tr)
    as (tr' & Hrun & Hext & _).
  rewrite Hnew in Hrun, Hext.
  exists tr'. split; assumption.
Qed.

Lemma init_ssl_ignores_allocation_failure_witness :
  exists tr',
    curl_wssl_init_ssl Fixture.out_of_sessions Fixture.debug Fixture.easy
      Fixture.named (Some "h3") 2 None
      {| ssl_ctx := Some 0; ssl := None |} [ev_wolfSSL_CTX_new (Some 0)] =
    Ret CURLE_OK {| ssl_ctx := Some 0; ssl := None |} tr'
    /\ extends [ev_wolfSSL_new (Some 0) None; ev_wolfSSL_CTX_new (Some 0)]
         tr'.
Proof.
  exact (init_ssl_ignores_allocation_failure Fixture.out_of_sessions
           Fixture.debug Fixture.easy Fixture.named (Some "h3") 2 None
           0 [ev_wolfSSL_CTX_new (Some 0)] eq_refl).
Defined.

(** The whole of Curl_vquic_tls_init in that situation, event by event. *)
Example init_without_session_memory :
  Curl_vquic_tls_init Fixture.out_of_sessions Fixture.debug USE_WOLFSSL
    (Fixture.filter Fixture.strict) Fixture.easy Fixture.named
    (Some "h3") 2 None None (zeroed USE_WOLFSSL) [] =
  Ret CURLE_OK {| ssl_ctx := Some 0; ssl := None |}
    [ ev_UseSNI None "example.test" 12;
      ev_set_alpn_protos None "h3" 2;
      ev_set_quic_use_legacy_codepoint None 0;
      ev_set_connect_state None;
      ev_set_app_data None None;
      ev_wolfSSL_new (Some 0) None;
      ev_infof " CApath: none";
      ev_infof " CAfile: ca.pem";
      ev_CTX_load_verify_locations 0 (Some "ca.pem") None 1 1;
      ev_CTX_set_verify 0 SSL_VERIFY_PEER;
      ev_keylog_open;
      ev_CTX_set1_groups_list 0 "P-256:P-384:P-521" 1;
      ev_CTX_set_cipher_list 0 QUIC_CIPHERS 1;
      ev_CTX_set_default_verify_paths 0;
      ev_wolfSSL_CTX_new (Some 0) ].
Proof. reflexivity. Qed.

(** ** Cleanup *)

Lemma cleanup_releases b (ctx : curl_tls_ctx b) tr :
  Curl_vquic_tls_cleanup b ctx tr =
  Ret tt (zeroed b) (rev (releases b ctx) ++ tr).
Proof.
  destruct b; destruct ctx as [p q]; try destruct ctx as [p q flag].
  all: destruct p, q; reflexivity.
Qed.

Lemma releases_zeroed b : releases b (zeroed b) = [].
Proof. destruct b; reflexivity. Qed.

Lemma cleanup_zeroed b tr :
  Curl_vquic_tls_cleanup b (zeroed b) tr = Ret tt (zeroed b) tr.
Proof. rewrite cleanup_releases, releases_zeroed. reflexivity. Qed.

(** The context build neither creates nor frees a session. *)
Lemma init_ctx_keeps_sessions X F cf data cb tr r ctx' tr' :
  curl_wssl_init_ctx X F cf data cb (zeroed USE_WOLFSSL) tr = Ret r ctx' tr' ->
  ssl_count tr = ssl_count tr'.
Proof.
  run_code.
  all: intros H; injection H as <- <- <-; reflexivity.
Qed.

(** Curl_vquic_tls_init on a zeroed wolfSSL structure always returns, in
    debug builds too, and the structure then holds exactly what the call
    allocated and did not free. *)
Lemma init_from_zeroed X F cf data peer alpn alpn_len cb ud tr :
  exists r ctx' tr',
    Curl_vquic_tls_init X F USE_WOLFSSL cf data peer alpn alpn_len cb ud
      (zeroed USE_WOLFSSL) tr = Ret r ctx' tr'
    /\ ctx_count tr' = (ctx_count tr + owned (ssl_ctx ctx'))%Z
    /\ ssl_count tr' = (ssl_count tr + owned (ssl ctx'))%Z
    /\ (ssl ctx' <> None -> ssl_ctx ctx' <> None).
Proof.
  destruct (curl_wssl_init_ctx_returns X F cf data cb (zeroed USE_WOLFSSL) tr)
    as (r & [p q] & tr1 & Hrun & Hssl & _ & Hok & Hfail).
  cbn in Hssl, Hok, Hfail. subst q.
  destruct (failed r) eqn:Hr.
  - apply failed_true_iff in Hr.
    destruct (Hfail Hr) as [Hnull Hcount]. subst p.
    exists r, {| ssl_ctx := None; ssl := None |}, tr1.
    split; [ now apply init_stops_on_ctx_failure | ].
    cbn. rewrite Hcount by reflexivity.
    repeat split; try lia; try congruence.
    rewrite <- (init_ctx_keeps_sessions X F cf data cb tr r _ tr1 Hrun).
    lia.
  - apply failed_false_iff in Hr. subst r.
    destruct (Hok eq_refl) as [Hp Hcount]. subst p.
    destruct (curl_wssl_init_ssl_returns X F data peer alpn alpn_len ud
                (fresh tr) tr1) as (tr2 & Hrun2 & _ & Hc2 & Hs2).
    eexists CURLE_OK, _, tr2.
    split.
    + unfold Curl_vquic_tls_init, landing, bind.
      rewrite Hrun. cbn -[curl_wssl_init_ssl fresh].
      rewrite Hrun2. reflexivity.
    + cbn -[fresh]. rewrite Hc2, Hs2, Hcount.
      rewrite <- (init_ctx_keeps_sessions X F cf data cb tr CURLE_OK _ tr1 Hrun).
      destruct (x_wolfSSL_new X tr1 (Some (fresh tr))); cbn;
        repeat split; try lia; congruence.
Qed.

Lemma verify_peer_wolfssl_keeps X cf data peer ctx tr r ctx' tr' :
  Curl_vquic_tls_verify_peer X USE_WOLFSSL cf data peer ctx tr
  = Ret r ctx' tr' ->
  ctx' = ctx /\ ctx_count tr' = ctx_count tr /\ ssl_count tr' = ssl_count tr.
Proof.
  run_code.
  all: intros H; injection H as <- <- <-; repeat split.
Qed.

Lemma cleanup_wolfssl_counts (ctx : wssl_ctx) tr :
  ctx_count (rev (releases USE_WOLFSSL ctx) ++ tr)
  = (ctx_count tr - owned (ssl_ctx ctx))%Z
  /\ ssl_count (rev (releases USE_WOLFSSL ctx) ++ tr)
     = (ssl_count tr - owned (ssl ctx))%Z.
Proof.
  destruct ctx as [[c | ] [s | ]]; cbn; split; lia.
Qed.

(** Along the life of a connection attempt the structure holds exactly
    the contexts and sessions that were created and not yet freed. *)
Lemma lifecycle_accounted X F tr0 ctx tr :
  lifecycle X F tr0 ctx tr ->
  ctx_count tr = (ctx_count tr0 + owned (ssl_ctx ctx))%Z
  /\ ssl_count tr = (ssl_count tr0 + owned (ssl ctx))%Z.
Proof.
  induction 1 as
    [ | cf data peer alpn alpn_len cb ud tr r ctx' tr' _ [IHc IHs] Hrun
      | cf data ctx tr r ctx' tr' _ IH Hrun
      | cf data peer ctx tr r ctx' tr' _ IH Hrun
      | ctx tr ctx' tr' _ [IHc IHs] Hrun ].
  - cbn. split; lia.
  - destruct (init_from_zeroed X F cf data peer alpn alpn_len cb ud tr)
      as (r1 & ctx1 & tr1 & Hrun1 & Hc & Hs & _).
    rewrite Hrun in Hrun1. injection Hrun1 as <- <- <-.
    cbn in IHc, IHs. split; lia.
  - cbn in Hrun. injection Hrun as <- <- <-. exact IH.
  - apply verify_peer_wolfssl_keeps in Hrun.
    destruct Hrun as (-> & -> & ->). exact IH.
  - rewrite cleanup_releases in Hrun.
    assert (Htr : tr' = rev (releases USE_WOLFSSL ctx) ++ tr) by congruence.
    assert (Hctx : ctx' = zeroed USE_WOLFSSL) by congruence.
    subst ctx' tr'.
    destruct (cleanup_wolfssl_counts ctx tr) as [-> ->].
    cbn. split; lia.
Qed.

(** C4.  Curl_vquic_tls_cleanup frees the session if there is one and
    the backend context if there is one, and leaves the zeroed structure:
    it never aborts, whatever the structure holds.  On a zeroed structure
    it calls nothing and changes nothing, so cleanup twice is cleanup
    once.  On wolfSSL, wherever a connection attempt stands (after a
    failed or a successful init, after trust setup or verification,
    after an earlier cleanup), cleanup brings the numbers of live
    contexts and sessions back to where the attempt started. *)
Theorem cleanup_is_idempotent b (ctx : curl_tls_ctx b) tr :
  Curl_vquic_tls_cleanup b ctx tr
  = Ret tt (zeroed b) (rev (releases b ctx) ++ tr)
  /\ (forall tr1,
      Curl_vquic_tls_cleanup b (zeroed b) tr1 = Ret tt (zeroed b) tr1)
  /\ (Curl_vquic_tls_cleanup b;; Curl_vquic_tls_cleanup b)%cfun ctx tr
     = Curl_vquic_tls_cleanup b ctx tr
  /\ (forall X F tr0 (c : wssl_ctx) tr1,
      lifecycle X F tr0 c tr1 ->
      exists tr2,
        Curl_vquic_tls_cleanup USE_WOLFSSL c tr1
        = Ret tt (zeroed USE_WOLFSSL) tr2
        /\ ctx_count tr2 = ctx_count tr0
        /\ ssl_count tr2 = ssl_count tr0).
Proof.
  split; [ apply cleanup_releases | ].
  split; [ apply cleanup_zeroed | ].
  split.
  - unfold bind at 1. rewrite cleanup_releases. apply cleanup_zeroed.
  - intros X F tr0 c tr1 Hlife.
    exists (rev (releases USE_WOLFSSL c) ++ tr1).
    split; [ apply cleanup_releases | ].
    destruct (lifecycle_accounted X F tr0 c tr1 Hlife) as [Hc Hs].
    destruct (cleanup_wolfssl_counts c tr1) as [-> ->].
    split; lia.
Qed.

(** Cleanup after a context build that failed on the cipher list, and
    after an init that succeeded: nothing is freed twice. *)
Example cleanup_after_failed_build :
  (Curl_vquic_tls_init Fixture.rejecting_ciphers Fixture.debug USE_WOLFSSL
     (Fixture.filter Fixture.strict) Fixture.easy Fixture.named
     (Some "h3") 2 None None;;
   Curl_vquic_tls_cleanup USE_WOLFSSL;;
   Curl_vquic_tls_cleanup USE_WOLFSSL)%cfun (zeroed USE_WOLFSSL) [] =
  Ret tt (zeroed USE_WOLFSSL)
    [ ev_SSL_CTX_free 0;
      ev_failf
        "wolfSSL failed to set ciphers: error:0A0000B9:no cipher match";
      ev_CTX_set_cipher_list 0 QUIC_CIPHERS 0;
      ev_CTX_set_default_verify_paths 0;
      ev_wolfSSL_CTX_new (Some 0) ].
Proof. reflexivity. Qed.

(** ** Trust setup before the first read *)

Lemma before_recv_settled X b cf data (ctx : curl_tls_ctx b) tr :
  ready_flag b ctx <> Some false ->
  Curl_vquic_tls_before_recv X b cf data ctx tr = Ret CURLE_OK ctx tr.
Proof.
  destruct b; cbn; intros Hready.
  - unfold_calls. destruct (x509_store_setup ctx); [ reflexivity | ].
    now contradiction Hready.
  - unfold_calls. destruct (trust_setup ctx); [ reflexivity | ].
    now contradiction Hready.
  - reflexivity.
Qed.

Lemma before_recv_once X b cf data (ctx : curl_tls_ctx b) tr :
  (b = USE_GNUTLS -> gtls_marks_ready X) ->
  exists r ctx1 tr1,
    Curl_vquic_tls_before_recv X b cf data ctx tr = Ret r ctx1 tr1
    /\ (r = CURLE_OK -> ready_flag b ctx1 <> Some false)
    /\ (trust_setups_done tr1 = trust_setups_done tr
        \/ trust_setups_done tr1 = S (trust_setups_done tr)
           /\ ready_flag b ctx1 <> Some false).
Proof.
  intros Hgtls.
  destruct b.
  - destruct ctx as [c s [ | ]].
    + exists CURLE_OK, (Build_ossl_ctx c s true), tr.
      cbn. repeat split; auto; discriminate.
    + unfold_calls. cbn.
      destruct (x_Curl_ssl_setup_x509_store X tr cf data c) eqn:Hr; cbn.
      all: do 3 eexists; split; [ reflexivity | ].
      all: cbn; split; [ discriminate | ].
      all: first [ left; reflexivity | right; split; [ reflexivity | discriminate ] ].
  - specialize (Hgtls eq_refl tr cf data ctx).
    destruct ctx as [c s [ | ]].
    + exists CURLE_OK, (Build_gtls_ctx c s true), tr.
      cbn. repeat split; auto; discriminate.
    + unfold_calls. cbn.
      destruct (x_Curl_gtls_client_trust_setup X tr cf data
                  (Build_gtls_ctx c s false)) as [r g] eqn:Hr.
      cbn in Hgtls.
      destruct r; cbn.
      all: do 3 eexists; split; [ reflexivity | ].
      all: cbn; split; [ try discriminate | ].
      all: try (left; reflexivity).
      * intros _. rewrite Hgtls by reflexivity. discriminate.
      * right. split; [ reflexivity | ].
        rewrite Hgtls by reflexivity. discriminate.
  - exists CURLE_OK, ctx, tr. cbn. repeat split; auto; discriminate.
Qed.

Lemma before_recv_times_settled X b cf data n (ctx : curl_tls_ctx b) tr :
  ready_flag b ctx <> Some false ->
  before_recv_times X b cf data n (ctx, tr) = (ctx, tr).
Proof.
  intros Hready. induction n as [ | n IH]; [ reflexivity | ].
  cbn -[Curl_vquic_tls_before_recv].
  rewrite before_recv_settled by assumption.
  exact IH.
Qed.

Lemma before_recv_times_bound X b cf data n :
  (b = USE_GNUTLS -> gtls_marks_ready X) ->
  forall (ctx : curl_tls_ctx b) tr,
    trust_setups_done (snd (before_recv_times X b cf data n (ctx, tr)))
    <= S (trust_setups_done tr).
Proof.
  intros Hgtls.
  induction n as [ | n IH]; intros ctx tr; [ cbn; lia | ].
  cbn -[Curl_vquic_tls_before_recv].
  destruct (before_recv_once X b cf data ctx tr Hgtls)
    as (r & ctx1 & tr1 & -> & _ & [Hsame | [Hmore Hready]]).
  - cbn. specialize (IH ctx1 tr1). lia.
  - cbn. rewrite before_recv_times_settled by assumption.
    cbn. lia.
Qed.

(** C8.  Curl_vquic_tls_before_recv always returns.  Once a call has
    returned CURLE_OK, the flag of the structure (where the backend has
    one) is set, and every later call, at any later point of the
    history, returns CURLE_OK without calling anything and without
    touching the structure.  In any number of calls the trust-store
    routine completes at most once.  For GnuTLS the flag is written by
    Curl_gtls_client_trust_setup itself, which is why that routine is
    assumed to set it when it succeeds. *)
Theorem trust_setup_completes_once X b cf data (ctx : curl_tls_ctx b) tr :
  (b = USE_GNUTLS -> gtls_marks_ready X) ->
  (exists r ctx1 tr1,
      Curl_vquic_tls_before_recv X b cf data ctx tr = Ret r ctx1 tr1)
  /\ (forall ctx1 tr1,
      Curl_vquic_tls_before_recv X b cf data ctx tr = Ret CURLE_OK ctx1 tr1 ->
      ready_flag b ctx1 <> Some false
      /\ forall n tr2,
          Curl_vquic_tls_before_recv X b cf data ctx1 tr2
          = Ret CURLE_OK ctx1 tr2
          /\ before_recv_times X b cf data n (ctx1, tr2) = (ctx1, tr2))
  /\ (forall n,
      trust_setups_done (snd (before_recv_times X b cf data n (ctx, tr)))
      <= S (trust_setups_done tr)).
Proof.
  intros Hgtls.
  destruct (before_recv_once X b cf data ctx tr Hgtls)
    as (r & ctx1 & tr1 & Hrun & Hok & _).
  split; [ now exists r, ctx1, tr1 | ].
  split.
  - intros ctx2 tr2 Hrun2. rewrite Hrun in Hrun2.
    assert (Hr : r = CURLE_OK) by congruence.
    assert (Hc : ctx1 = ctx2) by congruence.
    subst ctx2. specialize (Hok Hr).
    split; [ exact Hok | ].
    intros n tr3. split.
    + now apply before_recv_settled.
    + now apply before_recv_times_settled.
  - intros n. now apply before_recv_times_bound.
Qed.

(** Five calls on a GnuTLS structure: one run of the trust routine. *)
Lemma trust_setup_completes_once_witness :
  before_recv_times Fixture.accepting USE_GNUTLS
    (Fixture.filter Fixture.strict) Fixture.easy 5 (zeroed USE_GNUTLS, [])
  = ({| cred := None; session := None; trust_setup := true |},
     [ev_Curl_gtls_client_trust_setup CURLE_OK])
  /\ forall n,
      trust_setups_done
        (snd (before_recv_times Fixture.accepting USE_GNUTLS
                (Fixture.filter Fixture.strict) Fixture.easy n
                (zeroed USE_GNUTLS, [])))
      <= 1.
Proof.
  split; [ reflexivity | ].
  exact (proj2 (proj2
    (trust_setup_completes_once Fixture.accepting USE_GNUTLS
       (Fixture.filter Fixture.strict) Fixture.easy (zeroed USE_GNUTLS) []
       (fun _ tr cf data g _ => eq_refl)))).
Defined.

(** A trust routine that fails twice before it succeeds is run three
    times by four calls; only the last run completes. *)
Example failed_trust_setup_is_retried :
  before_recv_times Fixture.slow_store USE_OPENSSL
    (Fixture.filter Fixture.strict)
    Fixture.easy 4
    ({| ossl_ssl_ctx := Some 7; ossl_ssl := Some 8;
        x509_store_setup := false |}, [])
  = ({| ossl_ssl_ctx := Some 7; ossl_ssl := Some 8;
        x509_store_setup := true |},
     [ ev_Curl_ssl_setup_x509_store (Some 7) CURLE_OK;
       ev_Curl_ssl_setup_x509_store (Some 7) CURLE_SSL_CACERT_BADFILE;
       ev_Curl_ssl_setup_x509_store (Some 7) CURLE_SSL_CACERT_BADFILE ]).
Proof. reflexivity. Qed.

(** C10.  In a wolfSSL build Curl_vquic_tls_before_recv calls nothing,
    leaves structure and history as they are and returns CURLE_OK, for
    every structure and every history.  In the two other builds a
    structure whose flag is clear makes it call the trust routine of the
    backend. *)
Theorem before_recv_wolfssl_is_empty X cf data :
  (forall ctx tr,
      Curl_vquic_tls_before_recv X USE_WOLFSSL cf data ctx tr
      = Ret CURLE_OK ctx tr)
  /\ (forall c s tr,
      exists r ctx1,
        Curl_vquic_tls_before_recv X USE_OPENSSL cf data
          {| ossl_ssl_ctx := c; ossl_ssl := s; x509_store_setup := false |}
          tr
        = Ret r ctx1
            (ev_Curl_ssl_setup_x509_store c
               (x_Curl_ssl_setup_x509_store X tr cf data c) :: tr))
  /\ (forall c s tr,
      exists r ctx1,
        Curl_vquic_tls_before_recv X USE_GNUTLS cf data
          {| cred := c; session := s; trust_setup := false |} tr
        = Ret r ctx1
            (ev_Curl_gtls_client_trust_setup
               (fst (x_Curl_gtls_client_trust_setup X tr cf data
                       {| cred := c; session := s;
                          trust_setup := false |})) :: tr)).
Proof.
  split; [ reflexivity | ].
  split.
  - intros c s tr. unfold_calls. cbn.
    destruct (x_Curl_ssl_setup_x509_store X tr cf data c); cbn.
    all: do 2 eexists; reflexivity.
  - intros c s tr. unfold_calls. cbn.
    destruct (x_Curl_gtls_client_trust_setup X tr cf data
                (Build_gtls_ctx c s false)) as [r g].
    destruct r; cbn.
    all: do 2 eexists; reflexivity.
Qed.

(** ** Peer verification *)

(** C9.  Without a primary TLS configuration Curl_vquic_tls_verify_peer
    returns CURLE_FAILED_INIT at once, in every build and for every
    peer: the history is the one it started with, so no check of the
    backend has run. *)
Theorem verify_peer_needs_config X b cf data peer (ctx : curl_tls_ctx b) tr :
  Curl_ssl_cf_get_primary_config cf = None ->
  Curl_vquic_tls_verify_peer X b cf data peer ctx tr
  = Ret CURLE_FAILED_INIT ctx tr.
Proof.
  intros Hconf.
  unfold Curl_vquic_tls_verify_peer, landing.
  rewrite Hconf. reflexivity.
Qed.

Lemma verify_peer_needs_config_witness :
  Curl_vquic_tls_verify_peer Fixture.accepting USE_OPENSSL
    Fixture.unconfigured Fixture.easy Fixture.named
    {| ossl_ssl_ctx := Some 0; ossl_ssl := Some 1;
       x509_store_setup := true |} []
  = Ret CURLE_FAILED_INIT
      {| ossl_ssl_ctx := Some 0; ossl_ssl := Some 1;
         x509_store_setup := true |} [].
Proof.
  exact (verify_peer_needs_config Fixture.accepting USE_OPENSSL
           Fixture.unconfigured Fixture.easy Fixture.named
           {| ossl_ssl_ctx := Some 0; ossl_ssl := Some 1;
              x509_store_setup := true |} [] eq_refl).
Defined.

(** C2, as the code has it.  In a wolfSSL build, with [verifyhost] set
    and a peer that has no SNI name, Curl_vquic_tls_verify_peer returns
    CURLE_PEER_FAILED_VERIFICATION whatever the library would answer:
    wolfSSL_check_domain_name is not even called.  (The two other builds
    do not look at [peer->sni]; see [missing_sni_can_pass].) *)
Theorem verify_peer_without_sni_fails X cf data peer conf ctx tr :
  Curl_ssl_cf_get_primary_config cf = Some conf ->
  verifyhost conf = true ->
  sni peer = None ->
  Curl_vquic_tls_verify_peer X USE_WOLFSSL cf data peer ctx tr
  = Ret CURLE_PEER_FAILED_VERIFICATION ctx tr.
Proof.
  intros Hconf Hhost Hsni.
  unfold Curl_vquic_tls_verify_peer, landing, bind, get.
  rewrite Hconf, Hhost, Hsni. reflexivity.
Qed.

Lemma verify_peer_without_sni_fails_witness :
  Curl_vquic_tls_verify_peer Fixture.accepting USE_WOLFSSL
    (Fixture.filter Fixture.strict) Fixture.easy Fixture.unnamed
    {| ssl_ctx := Some 0; ssl := Some 9 |} []
  = Ret CURLE_PEER_FAILED_VERIFICATION
      {| ssl_ctx := Some 0; ssl := Some 9 |} [].
Proof.
  exact (verify_peer_without_sni_fails Fixture.accepting
           (Fixture.filter Fixture.strict) Fixture.easy Fixture.unnamed
           Fixture.strict {| ssl_ctx := Some 0; ssl := Some 9 |} []
           eq_refl eq_refl eq_refl).
Defined.

(** C2 as it is written does not hold for every build.  Only the
    wolfSSL branch tests [peer->sni]; the GnuTLS and OpenSSL branches
    hand the peer to Curl_gtls_verifyserver and Curl_oss_check_peer_cert
    and return their answer, so with [verifyhost] set and no SNI name
    the call passes whenever the helper does. *)
Lemma missing_sni_can_pass :
  verifyhost Fixture.strict = true
  /\ sni Fixture.unnamed = None
  /\ Curl_vquic_tls_verify_peer Fixture.accepting USE_GNUTLS
       (Fixture.filter Fixture.strict) Fixture.easy Fixture.unnamed
       {| cred := Some 3; session := Some 4; trust_setup := true |} []
     = Ret CURLE_OK
         {| cred := Some 3; session := Some 4; trust_setup := true |}
         [ev_Curl_gtls_verifyserver (Some 4) CURLE_OK]
  /\ Curl_vquic_tls_verify_peer Fixture.accepting USE_OPENSSL
       (Fixture.filter Fixture.strict) Fixture.easy Fixture.unnamed
       {| ossl_ssl_ctx := Some 0; ossl_ssl := Some 1;
          x509_store_setup := true |} []
     = Ret CURLE_OK
         {| ossl_ssl_ctx := Some 0; ossl_ssl := Some 1;
            x509_store_setup := true |}
         [ev_Curl_oss_check_peer_cert CURLE_OK]
  /\ ~ missing_sni_always_fails.
Proof.
  split; [ reflexivity | ].
  split; [ reflexivity | ].
  split; [ reflexivity | ].
  split; [ reflexivity | ].
  intros Hclaim.
  destruct (Hclaim Fixture.accepting USE_GNUTLS
              (Fixture.filter Fixture.strict) Fixture.easy Fixture.unnamed
              Fixture.strict
              {| cred := Some 3; session := Some 4; trust_setup := true |}
              [] eq_refl eq_refl eq_refl)
    as (r & ctx' & tr' & Hrun & Hr).
  apply Hr. injection Hrun as <- _ _. reflexivity.
Qed.

(** In a GnuTLS build with [verifyhost] set, the verdict is the one of
    Curl_gtls_verifyserver, with or without SNI name. *)
Lemma verify_peer_gnutls_delegates X cf data peer conf ctx tr :
  Curl_ssl_cf_get_primary_config cf = Some conf ->
  verifyhost conf = true ->
  let r := x_Curl_gtls_verifyserver X tr data (session ctx) conf peer
             (STRING_SSL_PINNEDPUBLICKEY data) in
  Curl_vquic_tls_verify_peer X USE_GNUTLS cf data peer ctx tr
  = Ret r ctx (ev_Curl_gtls_verifyserver (session ctx) r :: tr).
Proof.
  intros Hconf Hhost r. subst r.
  unfold Curl_vquic_tls_verify_peer, landing, bind.
  rewrite Hconf, Hhost. unfold_calls.
  destruct (x_Curl_gtls_verifyserver X tr data (session ctx) conf peer
              (STRING_SSL_PINNEDPUBLICKEY data)); reflexivity.
Qed.

(** C1 as it is written does not hold.  With [verifypeer] off and
    [verifyhost] left on, a wolfSSL peer without SNI name is refused:
    switching [verifypeer] off does not make Curl_vquic_tls_verify_peer
    pass. *)
Lemma verifypeer_off_can_fail :
  verifypeer Fixture.no_peer_check = false
  /\ Curl_vquic_tls_verify_peer Fixture.accepting USE_WOLFSSL
       (Fixture.filter Fixture.no_peer_check) Fixture.easy Fixture.unnamed
       {| ssl_ctx := Some 0; ssl := Some 9 |} []
     = Ret CURLE_PEER_FAILED_VERIFICATION
         {| ssl_ctx := Some 0; ssl := Some 9 |} []
  /\ ~ verifypeer_off_always_passes.
Proof.
  split; [ reflexivity | ].
  split; [ reflexivity | ].
  intros Hclaim.
  destruct (Hclaim Fixture.accepting USE_WOLFSSL
              (Fixture.filter Fixture.no_peer_check) Fixture.easy
              Fixture.unnamed Fixture.no_peer_check
              {| ssl_ctx := Some 0; ssl := Some 9 |} [] eq_refl eq_refl)
    as (ctx' & tr' & Hrun).
  discriminate Hrun.
Qed.

(** C1, as the code has it.  The flag Curl_vquic_tls_verify_peer reads
    is [verifyhost]; [verifypeer] is not looked at.  With [verifyhost]
    clear the wolfSSL and GnuTLS builds return CURLE_OK for every peer
    without asking the library anything.  The OpenSSL build hands the
    decision to Curl_oss_check_peer_cert and returns its answer. *)
Theorem verifyhost_off_passes X cf data peer conf :
  Curl_ssl_cf_get_primary_config cf = Some conf ->
  verifyhost conf = false ->
  (forall ctx tr,
      Curl_vquic_tls_verify_peer X USE_WOLFSSL cf data peer ctx tr
      = Ret CURLE_OK ctx tr)
  /\ (forall ctx tr,
      Curl_vquic_tls_verify_peer X USE_GNUTLS cf data peer ctx tr
      = Ret CURLE_OK ctx tr)
  /\ (forall ctx tr,
      Curl_vquic_tls_verify_peer X USE_OPENSSL cf data peer ctx tr
      = Ret (fst (x_Curl_oss_check_peer_cert X tr cf data ctx peer))
          (snd (x_Curl_oss_check_peer_cert X tr cf data ctx peer))
          (ev_Curl_oss_check_peer_cert
             (fst (x_Curl_oss_check_peer_cert X tr cf data ctx peer))
           :: tr)).
Proof.
  intros Hconf Hhost.
  unfold Curl_vquic_tls_verify_peer, landing, bind.
  rewrite Hconf, Hhost.
  repeat split.
  intros ctx tr. unfold_calls.
  destruct (x_Curl_oss_check_peer_cert X tr cf data ctx peer) as [r o].
  reflexivity.
Qed.

Lemma verifyhost_off_passes_witness :
  Curl_vquic_tls_verify_peer Fixture.accepting USE_WOLFSSL
    (Fixture.filter Fixture.no_host_check) Fixture.easy Fixture.unnamed
    {| ssl_ctx := Some 0; ssl := Some 9 |} []
  = Ret CURLE_OK {| ssl_ctx := Some 0; ssl := Some 9 |} [].
Proof.
  exact (proj1
    (verifyhost_off_passes Fixture.accepting
       (Fixture.filter Fixture.no_host_check) Fixture.easy Fixture.unnamed
       Fixture.no_host_check eq_refl eq_refl)
    {| ssl_ctx := Some 0; ssl := Some 9 |} []).
Defined.

(** Host verification as the backend answers it: a name the certificate
    does not carry is refused, one it carries passes. *)
Example verify_peer_asks_wolfssl :
  let ctx := {| ssl_ctx := Some 0; ssl := Some 9 |} in
  Curl_vquic_tls_verify_peer Fixture.accepting USE_WOLFSSL
    (Fixture.filter Fixture.strict)
    Fixture.easy {| sni := Some "example.test" |} ctx []
  = Ret CURLE_OK ctx
      [ev_check_domain_name (Some 9) "example.test" SSL_SUCCESS]
  /\ Curl_vquic_tls_verify_peer Fixture.accepting USE_WOLFSSL
       (Fixture.filter Fixture.strict) Fixture.easy
       {| sni := Some "other.test" |} ctx []
     = Ret CURLE_PEER_FAILED_VERIFICATION ctx
         [ev_check_domain_name (Some 9) "other.test" SSL_FAILURE].
Proof. split; reflexivity. Qed.

(** ** More on the context build *)

Ltac delta := repeat first [ apply added_none | eapply added_one ].

(** Find an event in a written-out list, up to the answers known. *)
Ltac find_event :=
  cbn -[Z.eqb String.append substring fresh];
  solve [ repeat first [ left; solve [ reflexivity | f_equal; congruence ]
                       | right ] ].

(** An event that is not in a written-out list. *)
Ltac no_event :=
  let H := fresh "Hin" in
  intros H; cbn -[Z.eqb String.append substring fresh] in H;
  repeat (destruct H as [H | H]; [ try discriminate H | ]);
  try contradiction; try discriminate.

(** Use what the tests on flags found. *)
Ltac flag_facts :=
  repeat match goal with
  | H : ?x = true |- context [if ?x then _ else _] => rewrite H
  | H : ?x = false |- context [if ?x then _ else _] => rewrite H
  end.

(** Whether a CA file or path is configured. *)
Ltac ca_facts :=
  repeat match goal with
  | H : negb (is_null ?a) || negb (is_null ?b) = _ |- _ =>
      destruct a, b; cbn in H; try discriminate H; clear H
  end.

Lemma added_app tr d tr' : added tr d tr' -> tr' = d ++ tr.
Proof. induction 1; cbn; congruence. Qed.

(** X1.  A context build that returns CURLE_OK had a configuration, left
    the context it allocated in [ctx->ssl_ctx] and [ctx->ssl] as it was,
    and got every setting accepted on the way: the cipher list and the
    group list were answered with 1, the verify mode is the one
    [verifypeer] asks for, a configured CA file or path was loaded with
    SSL_SUCCESS when the peer is verified; nothing was freed and no
    [failf] was issued. *)
Theorem init_ctx_success_means_configured X F cf data cb ctx tr :
  exists r ctx' tr',
    curl_wssl_init_ctx X F cf data cb ctx tr = Ret r ctx' tr'
    /\ (r = CURLE_OK ->
        exists conf d,
          Curl_ssl_cf_get_primary_config cf = Some conf
          /\ added tr d tr'
          /\ ctx' = {| ssl_ctx := Some (fresh tr); ssl := ssl ctx |}
          /\ In (ev_CTX_set_cipher_list (fresh tr) (suites_of conf) 1) d
          /\ In (ev_CTX_set1_groups_list (fresh tr)
                   (or_default (curves conf) QUIC_GROUPS) 1) d
          /\ In (ev_CTX_set_verify (fresh tr)
                   (if verifypeer conf then SSL_VERIFY_PEER
                    else SSL_VERIFY_NONE)) d
          /\ (verifypeer conf = true ->
              CAfile conf <> None \/ CApath conf <> None ->
              In (ev_CTX_load_verify_locations (fresh tr) (CAfile conf)
                    (CApath conf) WOLFSSL_LOAD_FLAG_IGNORE_ERR SSL_SUCCESS)
                 d)
          /\ (forall c, ~ In (ev_SSL_CTX_free c) d)
          /\ (forall msg, ~ In (ev_failf msg) d)).
Proof.
  destruct ctx as [c0 s0].
  unfold suites_of.
  run_code.
  all: field_facts.
  all: do 3 eexists; split; [ reflexivity | ].
  all: intros Hok; code_facts; try discriminate.
  all: z_facts.
  all: do 2 eexists; split; [ reflexivity | ]; split; [ delta | ].
  all: split; [ reflexivity | ].
  all: split; [ find_event | ].
  all: split; [ find_event | ].
  all: split; [ flag_facts; find_event | ].
  all: split;
    [ intros Hpeer Hca; try congruence;
      first [ find_event
            | ca_facts; destruct Hca as [Hca | Hca]; now contradiction Hca ]
    | ].
  all: split; [ intros c' | intros msg ]; no_event.
Qed.

(** Pick the case of a disjunction that the facts at hand prove. *)
Ltac pick_case :=
  first [ solve [ reflexivity | assumption | congruence ]
        | solve [ eexists; pick_case ]
        | solve [ split; pick_case ]
        | solve [ left; pick_case ]
        | solve [ right; pick_case ] ].

(** X2.  Every failure of the context build has one of these causes: no
    configuration (CURLE_FAILED_INIT); no memory (CURLE_OUT_OF_MEMORY,
    only the failed allocation is on record); the transport's hook, whose
    code is returned as it is, the context being freed right after the
    hook; or a failure that [failf] announces just before the context is
    freed: cipher list or curves (CURLE_BAD_FUNCTION_ARGUMENT), key
    logging without callback support (CURLE_NOT_BUILT_IN), CA locations
    of a verified peer (CURLE_SSL_CACERT_BADFILE, the message naming file
    and path, "none" for a missing one), or the application's hook,
    whose code is returned as it is. *)
Theorem init_ctx_failure_is_explained X F cf data cb ctx tr :
  exists r ctx' tr',
    curl_wssl_init_ctx X F cf data cb ctx tr = Ret r ctx' tr'
    /\ (r <> CURLE_OK ->
        (Curl_ssl_cf_get_primary_config cf = None
         /\ r = CURLE_FAILED_INIT)
        \/ (x_wolfSSL_CTX_new X tr = false
            /\ r = CURLE_OUT_OF_MEMORY
            /\ tr' = ev_wolfSSL_CTX_new None :: tr)
        \/ (exists f,
              cb = Some f
              /\ r = f (after_new tr)
              /\ tr' = ev_SSL_CTX_free (fresh tr) :: ev_cb_setup r
                       :: after_new tr)
        \/ (exists msg rest,
              tr' = ev_SSL_CTX_free (fresh tr) :: ev_failf msg :: rest
              /\ ((r = CURLE_BAD_FUNCTION_ARGUMENT
                   /\ exists text,
                       msg = ("wolfSSL failed to set ciphers: "
                              ++ text)%string)
                  \/ (r = CURLE_BAD_FUNCTION_ARGUMENT
                      /\ msg = "wolfSSL failed to set curves")
                  \/ (r = CURLE_NOT_BUILT_IN
                      /\ msg = "wolfSSL was built without keylog callback"
                      /\ HAVE_SECRET_CALLBACK F = false)
                  \/ (r = CURLE_SSL_CACERT_BADFILE
                      /\ exists conf,
                          Curl_ssl_cf_get_primary_config cf = Some conf
                          /\ verifypeer conf = true
                          /\ msg =
                             ("error setting certificate verify locations:"
                              ++ "  CAfile: "
                              ++ or_default (CAfile conf) "none"
                              ++ " CApath: "
                              ++ or_default (CApath conf) "none")%string)
                  \/ (msg = "error signaled by ssl ctx callback"
                      /\ exists f h,
                          fsslctx data = Some f
                          /\ r = f h (fresh tr))))).
Proof.
  destruct ctx as [c0 s0].
  unfold after_new.
  run_code.
  all: field_facts.
  all: do 3 eexists; split; [ reflexivity | ].
  all: intros Hbad; try congruence.
  all: code_facts.
  all: pick_case.
Qed.

(** X3.  Once the cipher list is accepted the group list is applied
    next: [conn_config->curves] when it is there, [QUIC_GROUPS]
    otherwise.  When wolfSSL does not answer 1 the build ends with
    CURLE_BAD_FUNCTION_ARGUMENT after [failf] said "wolfSSL failed to
    set curves", and the context is freed. *)
Theorem init_ctx_applies_group_list X F cf data cb ctx tr conf :
  Curl_ssl_cf_get_primary_config cf = Some conf ->
  x_wolfSSL_CTX_new X tr = true ->
  cb_setup_passes cb (after_new tr) ->
  cipher_rc X conf cb tr = 1%Z ->
  (exists r ctx' tr',
      curl_wssl_init_ctx X F cf data cb ctx tr = Ret r ctx' tr'
      /\ extends (after_groups X conf cb tr) tr')
  /\ (groups_rc X conf cb tr <> 1%Z ->
      curl_wssl_init_ctx X F cf data cb ctx tr =
      Ret CURLE_BAD_FUNCTION_ARGUMENT
        {| ssl_ctx := None; ssl := ssl ctx |}
        (ev_SSL_CTX_free (fresh tr)
         :: ev_failf "wolfSSL failed to set curves"
         :: after_groups X conf cb tr)).
Proof.
  intros Hconf Hnew Hcb Hrc.
  destruct ctx as [c0 s0].
  unfold Curl_ssl_cf_get_primary_config in Hconf.
  unfold_path. destruct cb as [f | ].
  all: try rewrite Hcb in Hrc.
  all: cbn -[Z.eqb String.append substring fresh] in Hrc.
  all: split; [ | intros Hg ].
  all: unfold_calls; rewrite Hconf;
    cbn -[Z.eqb String.append substring fresh];
    rewrite Hnew; cbn -[Z.eqb String.append substring fresh];
    try rewrite Hcb; cbn -[Z.eqb String.append substring fresh];
    rewrite Hrc; rewrite Z.eqb_refl;
    cbn -[Z.eqb String.append substring fresh].
  1, 3: repeat step; do 3 eexists; (split; [ reflexivity | ]); grows.
  all: apply Z.eqb_neq in Hg; try rewrite Hcb in Hg;
    cbn -[Z.eqb String.append substring fresh] in Hg;
    rewrite Hrc in Hg; rewrite Hg; reflexivity.
Qed.

Lemma init_ctx_applies_group_list_witness :
  curl_wssl_init_ctx Fixture.rejecting_groups Fixture.release
    (Fixture.filter anchorless) Fixture.easy None (zeroed USE_WOLFSSL) [] =
  Ret CURLE_BAD_FUNCTION_ARGUMENT {| ssl_ctx := None; ssl := None |}
    [ ev_SSL_CTX_free 0;
      ev_failf "wolfSSL failed to set curves";
      ev_CTX_set1_groups_list 0 "X25519" 0;
      ev_CTX_set_cipher_list 0 QUIC_CIPHERS 1;
      ev_CTX_set_default_verify_paths 0;
      ev_wolfSSL_CTX_new (Some 0) ].
Proof.
  refine (proj2
    (init_ctx_applies_group_list Fixture.rejecting_groups Fixture.release
       (Fixture.filter anchorless) Fixture.easy None (zeroed USE_WOLFSSL) []
       anchorless eq_refl eq_refl I eq_refl) _).
  vm_compute. discriminate.
Defined.

(** X4.  A transport hook that fails stops the build before anything is
    set on the new context: its code is returned unchanged, no [failf]
    is issued here, and the context is freed right after the hook. *)
Theorem init_ctx_hook_failure_is_surfaced X F cf data f ctx tr conf :
  Curl_ssl_cf_get_primary_config cf = Some conf ->
  x_wolfSSL_CTX_new X tr = true ->
  f (after_new tr) <> CURLE_OK ->
  curl_wssl_init_ctx X F cf data (Some f) ctx tr =
  Ret (f (after_new tr)) {| ssl_ctx := None; ssl := ssl ctx |}
    (ev_SSL_CTX_free (fresh tr) :: ev_cb_setup (f (after_new tr))
     :: after_new tr).
Proof.
  intros Hconf Hnew Hf.
  destruct ctx as [c0 s0].
  unfold Curl_ssl_cf_get_primary_config in Hconf.
  apply failed_true_iff in Hf.
  unfold after_new in *.
  unfold_calls. rewrite Hconf.
  cbn -[Z.eqb String.append substring fresh]. rewrite Hnew.
  cbn -[Z.eqb String.append substring fresh]. rewrite Hf.
  cbn -[Z.eqb String.append substring fresh]. rewrite Hf.
  reflexivity.
Qed.

Lemma init_ctx_hook_failure_is_surfaced_witness :
  curl_wssl_init_ctx Fixture.accepting Fixture.release
    (Fixture.filter Fixture.strict) Fixture.easy
    (Some (fun _ => CURLE_other 92)) (zeroed USE_WOLFSSL) [] =
  Ret (CURLE_other 92) (zeroed USE_WOLFSSL)
    [ ev_SSL_CTX_free 0; ev_cb_setup (CURLE_other 92);
      ev_wolfSSL_CTX_new (Some 0) ].
Proof.
  refine (init_ctx_hook_failure_is_surfaced Fixture.accepting
            Fixture.release (Fixture.filter Fixture.strict) Fixture.easy
            (fun _ => CURLE_other 92) (zeroed USE_WOLFSSL) []
            Fixture.strict eq_refl eq_refl _).
  discriminate.
Defined.

(** X5.  With [verifypeer] off the build never loads CA locations, even
    when a CA file or path is configured, and never asks for
    SSL_VERIFY_PEER; when it succeeds it has set SSL_VERIFY_NONE and has
    set the default verify paths exactly once. *)
Theorem init_ctx_without_peer_verification X F cf data cb ctx tr conf :
  Curl_ssl_cf_get_primary_config cf = Some conf ->
  verifypeer conf = false ->
  exists r ctx' tr' d,
    curl_wssl_init_ctx X F cf data cb ctx tr = Ret r ctx' tr'
    /\ added tr d tr'
    /\ (forall c file path flags rc,
        ~ In (ev_CTX_load_verify_locations c file path flags rc) d)
    /\ (forall c, ~ In (ev_CTX_set_verify c SSL_VERIFY_PEER) d)
    /\ (r = CURLE_OK ->
        In (ev_CTX_set_verify (fresh tr) SSL_VERIFY_NONE) d
        /\ default_paths_set d = 1).
Proof.
  intros Hconf Hpeer.
  destruct ctx as [c0 s0].
  unfold Curl_ssl_cf_get_primary_config in Hconf.
  unfold_calls. rewrite Hconf.
  repeat (cbn -[Z.eqb String.append substring fresh];
          try rewrite Hpeer; try split_test).
  all: field_facts.
  all: do 4 eexists; split; [ reflexivity | ]; split; [ delta | ].
  all: split; [ intros c' file path flags rc; no_event | ].
  all: split; [ intros c'; no_event | ].
  all: intros Hok; code_facts; try discriminate.
  all: split; [ find_event | reflexivity ].
Qed.

Lemma init_ctx_without_peer_verification_witness :
  exists r ctx' tr' d,
    curl_wssl_init_ctx Fixture.missing_ca Fixture.release
      (Fixture.filter Fixture.no_peer_check) Fixture.easy None
      (zeroed USE_WOLFSSL) [] = Ret r ctx' tr'
    /\ added [] d tr'
    /\ (forall c file path flags rc,
        ~ In (ev_CTX_load_verify_locations c file path flags rc) d)
    /\ (forall c, ~ In (ev_CTX_set_verify c SSL_VERIFY_PEER) d)
    /\ (r = CURLE_OK ->
        In (ev_CTX_set_verify (fresh []) SSL_VERIFY_NONE) d
        /\ default_paths_set d = 1).
Proof.
  exact (init_ctx_without_peer_verification Fixture.missing_ca
           Fixture.release (Fixture.filter Fixture.no_peer_check)
           Fixture.easy None (zeroed USE_WOLFSSL) [] Fixture.no_peer_check
           eq_refl eq_refl).
Defined.

(** X6.  With [verifypeer] on and neither CA file nor CA path the build
    loads no CA locations; when it succeeds it has set SSL_VERIFY_PEER,
    and the default verify paths were set twice in a build with
    CURL_CA_FALLBACK and once in a build without. *)
Theorem init_ctx_without_anchors X F cf data cb ctx tr conf :
  Curl_ssl_cf_get_primary_config cf = Some conf ->
  verifypeer conf = true ->
  CAfile conf = None ->
  CApath conf = None ->
  exists r ctx' tr' d,
    curl_wssl_init_ctx X F cf data cb ctx tr = Ret r ctx' tr'
    /\ added tr d tr'
    /\ (forall c file path flags rc,
        ~ In (ev_CTX_load_verify_locations c file path flags rc) d)
    /\ (r = CURLE_OK ->
        In (ev_CTX_set_verify (fresh tr) SSL_VERIFY_PEER) d
        /\ default_paths_set d = if CURL_CA_FALLBACK F then 2 else 1).
Proof.
  intros Hconf Hpeer Hfile Hpath.
  destruct ctx as [c0 s0].
  unfold Curl_ssl_cf_get_primary_config in Hconf.
  unfold_calls. rewrite Hconf.
  repeat (cbn -[Z.eqb String.append substring fresh];
          try rewrite Hpeer; try rewrite Hfile; try rewrite Hpath;
          try split_test).
  all: field_facts.
  all: do 4 eexists; split; [ reflexivity | ]; split; [ delta | ].
  all: split; [ intros c' file path flags rc; no_event | ].
  all: intros Hok; code_facts; try discriminate.
  all: split; [ find_event | reflexivity ].
Qed.

Lemma init_ctx_without_anchors_witness :
  exists r ctx' tr' d,
    curl_wssl_init_ctx Fixture.accepting Fixture.release
      (Fixture.filter anchorless) Fixture.easy None
      (zeroed USE_WOLFSSL) [] = Ret r ctx' tr'
    /\ added [] d tr'
    /\ (forall c file path flags rc,
        ~ In (ev_CTX_load_verify_locations c file path flags rc) d)
    /\ (r = CURLE_OK ->
        In (ev_CTX_set_verify (fresh []) SSL_VERIFY_PEER) d
        /\ default_paths_set d = 1).
Proof.
  exact (init_ctx_without_anchors Fixture.accepting Fixture.release
           (Fixture.filter anchorless) Fixture.easy None
           (zeroed USE_WOLFSSL) [] anchorless
           eq_refl eq_refl eq_refl eq_refl).
Defined.

(** X7.  While key logging is off, HAVE_SECRET_CALLBACK makes no
    difference to the context build: both builds return the same result,
    structure and history; no keylog callback is registered, and a
    successful build has called Curl_tls_keylog_open all the same. *)
Theorem keylog_off_ignores_callback_support X F F' cf data cb ctx tr :
  (forall h, x_Curl_tls_keylog_enabled X h = false) ->
  CURL_CA_FALLBACK F = CURL_CA_FALLBACK F' ->
  curl_wssl_init_ctx X F cf data cb ctx tr
  = curl_wssl_init_ctx X F' cf data cb ctx tr
  /\ exists r ctx' tr' d,
      curl_wssl_init_ctx X F cf data cb ctx tr = Ret r ctx' tr'
      /\ added tr d tr'
      /\ (forall c, ~ In (ev_CTX_set_keylog_callback c) d)
      /\ (r = CURLE_OK -> In ev_keylog_open d).
Proof.
  intros Hlog Hfb.
  destruct ctx as [c0 s0].
  destruct F as [sc fb dbg], F' as [sc' fb' dbg'].
  cbn in Hfb. subst fb'.
  split.
  - unfold_calls.
    repeat (cbn -[Z.eqb String.append substring fresh];
            try rewrite !Hlog; try split_test).
    all: reflexivity.
  - unfold_calls.
    repeat (cbn -[Z.eqb String.append substring fresh];
            try rewrite !Hlog; try split_test).
    all: field_facts.
    all: do 4 eexists; split; [ reflexivity | ]; split; [ delta | ].
    all: split; [ intros c'; no_event | ].
    all: intros Hok; code_facts; try discriminate.
    all: find_event.
Qed.

Lemma keylog_off_ignores_callback_support_witness :
  curl_wssl_init_ctx Fixture.accepting Fixture.release
    (Fixture.filter Fixture.strict) Fixture.easy None
    (zeroed USE_WOLFSSL) []
  = curl_wssl_init_ctx Fixture.accepting
      {| HAVE_SECRET_CALLBACK := true; CURL_CA_FALLBACK := false;
         DEBUGBUILD := true |}
      (Fixture.filter Fixture.strict) Fixture.easy None
      (zeroed USE_WOLFSSL) [].
Proof.
  exact (proj1
    (keylog_off_ignores_callback_support Fixture.accepting Fixture.release
       {| HAVE_SECRET_CALLBACK := true; CURL_CA_FALLBACK := false;
          DEBUGBUILD := true |}
       (Fixture.filter Fixture.strict) Fixture.easy None
       (zeroed USE_WOLFSSL) [] (fun _ => eq_refl) eq_refl)).
Defined.

(** What an event of the application's hook in a written-out list says
    about the hook's answer. *)
Ltac hook_event H :=
  cbn -[Z.eqb String.append substring fresh] in H;
  repeat (destruct H as [H | H];
          [ first [ discriminate H
                  | let H1 := fresh "Hc" in
                    let H2 := fresh "Hr" in
                    injection H as H1 H2;
                    split;
                    [ congruence
                    | first [ exact H2
                            | rewrite <- H2; symmetry; assumption ] ] ]
          | ]);
  try contradiction.

(** X8.  The application's hook is called on the new context only, and
    it has the last word: once it was called the result of the build is
    its answer.  Without a hook no such call is made; a
    build that succeeds with a hook configured did call it; and the
    in-callback mark that is clear when the build starts is clear when
    it returns, also when the hook failed. *)
Theorem init_ctx_application_hook_decides X F cf data cb ctx tr :
  exists r ctx' tr' d,
    curl_wssl_init_ctx X F cf data cb ctx tr = Ret r ctx' tr'
    /\ added tr d tr'
    /\ (in_callback tr = false -> in_callback tr' = false)
    /\ (fsslctx data = None -> forall c r0, ~ In (ev_fsslctx c r0) d)
    /\ (forall c r0, In (ev_fsslctx c r0) d -> c = fresh tr /\ r = r0)
    /\ (r = CURLE_OK -> fsslctx data <> None ->
        exists r0, In (ev_fsslctx (fresh tr) r0) d).
Proof.
  destruct ctx as [c0 s0].
  run_code.
  all: field_facts.
  all: try congruence.
  all: do 4 eexists; split; [ reflexivity | ]; split; [ delta | ].
  all: split; [ intros Hcb; first [ exact Hcb | reflexivity ] | ].
  all: split; [ intros Hnone c' r0; try congruence; no_event | ].
  all: split; [ intros c' r0 Hin; code_facts; hook_event Hin | ].
  all: intros Hok Hhook; code_facts; try discriminate; try congruence.
  all: eexists; find_event.
Qed.

(** ** More on the session *)

(** X9.  In a debug build curl_wssl_init_ssl aborts, before any call to
    wolfSSL, exactly when the structure already holds a session or holds
    no context.  In a release build, and whenever both assertions hold,
    it calls wolfSSL_new once on [ctx->ssl_ctx] (NULL included), stores
    the answer over [ctx->ssl] and returns CURLE_OK; it frees nothing,
    so a session that was held before is left allocated. *)
Theorem init_ssl_aborts_on_misuse X F data peer alpn alpn_len ud ctx tr :
  (DEBUGBUILD F = true /\ (ssl ctx <> None \/ ssl_ctx ctx = None) ->
   curl_wssl_init_ssl X F data peer alpn alpn_len ud ctx tr = Abort tr)
  /\ (DEBUGBUILD F = false \/ (ssl ctx = None /\ ssl_ctx ctx <> None) ->
      exists s tr',
        curl_wssl_init_ssl X F data peer alpn alpn_len ud ctx tr
        = Ret CURLE_OK {| ssl_ctx := ssl_ctx ctx; ssl := s |} tr'
        /\ extends (ev_wolfSSL_new (ssl_ctx ctx) s :: tr) tr'
        /\ sessions_created tr' = S (sessions_created tr)
        /\ (forall old, ~ In (ev_SSL_free old) tr -> ~ In (ev_SSL_free old) tr')).
Proof.
  destruct ctx as [c0 s0]. cbn [ssl ssl_ctx].
  split.
  - intros [Hdbg Hbad]. unfold_calls. rewrite Hdbg.
    destruct s0 as [s0 | ]; [ reflexivity | ].
    destruct c0 as [c0 | ]; [ | reflexivity ].
    destruct Hbad; congruence.
  - intros Hfine. unfold_calls.
    destruct (DEBUGBUILD F), s0 as [s0 | ], c0 as [c0 | ].
    all: try (exfalso; destruct Hfine as [Hf | [Hf1 Hf2]]; congruence).
    all: cbn -[fresh to_int to_ushort].
    all: match goal with
         | |- context [x_wolfSSL_new ?x ?h ?p] =>
             destruct (x_wolfSSL_new x h p)
         end.
    all: destruct alpn, (sni peer).
    all: cbn -[fresh to_int to_ushort].
    all: do 2 eexists; split; [ reflexivity | ].
    all: split; [ grows | ].
    all: split; [ reflexivity | ].
    all: intros old Hold Hin; cbn in Hin.
    all: repeat (destruct Hin as [Hin | Hin]; [ discriminate Hin | ]).
    all: exact (Hold Hin).
Qed.

Lemma to_ushort_small n :
  (Z.of_nat n < 2 ^ 16)%Z -> to_ushort n = Z.of_nat n.
Proof.
  intros Hn. unfold to_ushort.
  apply Z.mod_small. lia.
Qed.

Lemma to_int_small n : (Z.of_nat n < 2 ^ 31)%Z -> to_int n = Z.of_nat n.
Proof.
  intros Hn. unfold to_int.
  rewrite Z.mod_small by lia.
  destruct (Z.ltb_spec (Z.of_nat n) (2 ^ 31)); [ reflexivity | lia ].
Qed.

(** X10.  On a structure with a context and no session,
    curl_wssl_init_ssl sets the client role, legacy codepoint 0 and the
    user data on the session it created.  It sends an SNI name exactly
    when the peer has one, and sets ALPN exactly when a protocol list is
    given, both on that session.  A name shorter than 2^16 bytes and an
    ALPN length below 2^31 reach wolfSSL with their true length. *)
Theorem init_ssl_names_the_server X F data peer alpn alpn_len ud c tr :
  exists s tr' d,
    curl_wssl_init_ssl X F data peer alpn alpn_len ud
      {| ssl_ctx := Some c; ssl := None |} tr
    = Ret CURLE_OK {| ssl_ctx := Some c; ssl := s |} tr'
    /\ added (ev_wolfSSL_new (Some c) s :: tr) d tr'
    /\ In (ev_set_connect_state s) d
    /\ In (ev_set_quic_use_legacy_codepoint s 0) d
    /\ In (ev_set_app_data s ud) d
    /\ (forall s' name len,
        In (ev_UseSNI s' name len) d <->
        s' = s /\ sni peer = Some name
        /\ len = to_ushort (String.length name))
    /\ (forall s' protos len,
        In (ev_set_alpn_protos s' protos len) d <->
        s' = s /\ alpn = Some protos /\ len = to_int alpn_len)
    /\ (forall name,
        sni peer = Some name ->
        (Z.of_nat (String.length name) < 2 ^ 16)%Z ->
        In (ev_UseSNI s name (Z.of_nat (String.length name))) d)
    /\ (forall protos,
        alpn = Some protos -> (Z.of_nat alpn_len < 2 ^ 31)%Z ->
        In (ev_set_alpn_protos s protos (Z.of_nat alpn_len)) d).
Proof.
  unfold_calls.
  destruct (DEBUGBUILD F), alpn as [protos | ], (sni peer) as [name | ].
  all: cbn -[fresh to_int to_ushort].
  all: destruct (x_wolfSSL_new X tr (Some c)).
  all: do 3 eexists; split; [ reflexivity | ]; split; [ delta | ].
  all: split; [ cbn; tauto | ].
  all: split; [ cbn; tauto | ].
  all: split; [ cbn; tauto | ].
  all: split;
    [ intros s' name' len; cbn -[to_int to_ushort]; split;
      [ intros Hin;
        repeat (destruct Hin as [Hin | Hin];
                [ first [ discriminate Hin
                        | injection Hin as <- <- <-; repeat split ] | ]);
        contradiction
      | intros (-> & Hsni & ->); try discriminate Hsni;
        injection Hsni as <-; tauto ]
    | ].
  all: split;
    [ intros s' protos' len; cbn -[to_int to_ushort]; split;
      [ intros Hin;
        repeat (destruct Hin as [Hin | Hin];
                [ first [ discriminate Hin
                        | injection Hin as <- <- <-; repeat split ] | ]);
        contradiction
      | intros (-> & Halpn & ->); try discriminate Halpn;
        injection Halpn as <-; tauto ]
    | ].
  all: split.
  all: try (intros name' Hsni Hlen; try discriminate Hsni;
            injection Hsni as <-;
            rewrite <- (to_ushort_small _ Hlen); cbn -[to_ushort]; tauto).
  all: intros protos' Halpn Hlen; try discriminate Halpn;
    injection Halpn as <-;
    rewrite <- (to_int_small _ Hlen); cbn -[to_int]; tauto.
Qed.

(** ** More on the entry points *)

Lemma init_ssl_creates_one_session X F data peer alpn alpn_len ud c tr :
  exists s tr',
    curl_wssl_init_ssl X F data peer alpn alpn_len ud
      {| ssl_ctx := Some c; ssl := None |} tr
    = Ret CURLE_OK {| ssl_ctx := Some c; ssl := s |} tr'
    /\ sessions_created tr' = S (sessions_created tr)
    /\ ctx_count tr' = ctx_count tr.
Proof.
  unfold_calls.
  destruct (DEBUGBUILD F), alpn, (sni peer).
  all: cbn -[fresh to_int to_ushort].
  all: destruct (x_wolfSSL_new X tr (Some c)).
  all: do 2 eexists; split; [ reflexivity | split; reflexivity ].
Qed.

(** X11.  Curl_vquic_tls_init on a zeroed wolfSSL structure always
    returns, in debug builds too.  When it fails the structure is zeroed
    again, no session was created and the numbers of live contexts and
    sessions are those before the call; when it succeeds the structure
    holds the new context and wolfSSL_new was called exactly once. *)
Theorem init_failure_leaves_zeroed X F cf data peer alpn alpn_len cb ud tr :
  exists r ctx' tr',
    Curl_vquic_tls_init X F USE_WOLFSSL cf data peer alpn alpn_len cb ud
      (zeroed USE_WOLFSSL) tr = Ret r ctx' tr'
    /\ (r <> CURLE_OK ->
        ctx' = zeroed USE_WOLFSSL
        /\ sessions_created tr' = sessions_created tr
        /\ ctx_count tr' = ctx_count tr
        /\ ssl_count tr' = ssl_count tr)
    /\ (r = CURLE_OK ->
        ssl_ctx ctx' = Some (fresh tr)
        /\ sessions_created tr' = S (sessions_created tr)
        /\ ctx_count tr' = (ctx_count tr + 1)%Z).
Proof.
  destruct (curl_wssl_init_ctx_returns X F cf data cb (zeroed USE_WOLFSSL) tr)
    as (r & [p q] & tr1 & Hrun & Hssl & Hsess & Hok & Hfail).
  cbn in Hssl, Hok, Hfail. subst q.
  destruct (failed r) eqn:Hr.
  - apply failed_true_iff in Hr.
    destruct (Hfail Hr) as [Hnull Hcount]. subst p.
    exists r, {| ssl_ctx := None; ssl := None |}, tr1.
    split; [ now apply init_stops_on_ctx_failure | ].
    split; [ intros _ | intros Hbad; contradiction ].
    rewrite Hcount by reflexivity.
    rewrite <- (init_ctx_keeps_sessions X F cf data cb tr r _ tr1 Hrun).
    repeat split; assumption.
  - apply failed_false_iff in Hr. subst r.
    destruct (Hok eq_refl) as [Hp Hcount]. subst p.
    destruct (init_ssl_creates_one_session X F data peer alpn alpn_len ud
                (fresh tr) tr1) as (s & tr2 & Hrun2 & Hs2 & Hc2).
    exists CURLE_OK, {| ssl_ctx := Some (fresh tr); ssl := s |}, tr2.
    split.
    + unfold Curl_vquic_tls_init, landing, bind.
      rewrite Hrun. cbn -[curl_wssl_init_ssl fresh].
      rewrite Hrun2. reflexivity.
    + split; [ intros Hbad; now contradiction Hbad | intros _ ].
      cbn -[fresh]. rewrite Hs2, Hc2, Hsess, Hcount. repeat split.
Qed.

(** X12.  Wherever one wolfSSL connection attempt stands, a session in
    the structure comes with a context, at most one context and one
    session of the attempt are live, and none is live while the
    structure is zeroed. *)
Theorem lifecycle_session_needs_context X F tr0 ctx tr :
  lifecycle X F tr0 ctx tr ->
  (ssl ctx <> None -> ssl_ctx ctx <> None)
  /\ (ctx_count tr0 <= ctx_count tr <= ctx_count tr0 + 1)%Z
  /\ (ssl_count tr0 <= ssl_count tr <= ssl_count tr0 + 1)%Z
  /\ (ctx = zeroed USE_WOLFSSL ->
      ctx_count tr = ctx_count tr0 /\ ssl_count tr = ssl_count tr0).
Proof.
  intros Hlife.
  destruct (lifecycle_accounted X F tr0 ctx tr Hlife) as [Hc Hs].
  split.
  - clear Hc Hs.
    induction Hlife as
      [ | cf data peer alpn alpn_len cb ud tr r ctx' tr' _ _ Hrun
        | cf data ctx tr r ctx' tr' _ IH Hrun
        | cf data peer ctx tr r ctx' tr' _ IH Hrun
        | ctx tr ctx' tr' _ _ Hrun ].
    + cbn. congruence.
    + destruct (init_from_zeroed X F cf data peer alpn alpn_len cb ud tr)
        as (r1 & ctx1 & tr1 & Hrun1 & _ & _ & Hinv).
      rewrite Hrun in Hrun1. injection Hrun1 as <- <- <-. exact Hinv.
    + cbn in Hrun. injection Hrun as <- <- <-. exact IH.
    + apply verify_peer_wolfssl_keeps in Hrun.
      destruct Hrun as (-> & _). exact IH.
    + rewrite cleanup_releases in Hrun.
      assert (Hctx : ctx' = zeroed USE_WOLFSSL) by congruence.
      subst ctx'. cbn. congruence.
  - rewrite Hc, Hs.
    destruct ctx as [[c | ] [s | ]]; cbn [owned ssl ssl_ctx].
    all: split; [ lia | split; [ lia | ] ].
    all: intros Hz; first [ discriminate Hz | split; lia ].
Qed.

Lemma lifecycle_session_needs_context_witness :
  exists tr,
    lifecycle Fixture.accepting Fixture.debug []
      {| ssl_ctx := Some 0; ssl := Some 9 |} tr
    /\ (ssl {| ssl_ctx := Some 0; ssl := Some 9 |} <> None ->
        ssl_ctx {| ssl_ctx := Some 0; ssl := Some 9 |} <> None)
    /\ (ctx_count [] <= ctx_count tr <= ctx_count [] + 1)%Z.
Proof.
  eexists.
  refine ((fun H =>
    conj H
      ((fun I => conj (proj1 I) (proj1 (proj2 I)))
         (lifecycle_session_needs_context Fixture.accepting Fixture.debug
            [] _ _ H))) _).
  exact (life_init Fixture.accepting Fixture.debug []
           (Fixture.filter Fixture.strict) Fixture.easy Fixture.named
           None 0 None None [] CURLE_OK _ _
           (life_start _ _ _) eq_refl).
Defined.

(** ** More on peer verification *)

(** X13.  With [verifyhost] set and a peer that has an SNI name, the
    wolfSSL build makes one call, wolfSSL_check_domain_name on
    [ctx->ssl] and that name, and fails with
    CURLE_PEER_FAILED_VERIFICATION exactly when the answer is
    SSL_FAILURE: any other answer, a negative one included, passes.
    The structure is left as it was. *)
Theorem verify_peer_follows_domain_check X cf data peer conf name ctx tr :
  Curl_ssl_cf_get_primary_config cf = Some conf ->
  verifyhost conf = true ->
  sni peer = Some name ->
  let rc := x_wolfSSL_check_domain_name X tr (ssl ctx) name in
  Curl_vquic_tls_verify_peer X USE_WOLFSSL cf data peer ctx tr
  = Ret (if (rc =? SSL_FAILURE)%Z then CURLE_PEER_FAILED_VERIFICATION
         else CURLE_OK)
      ctx (ev_check_domain_name (ssl ctx) name rc :: tr)
  /\ ((rc < 0)%Z ->
      Curl_vquic_tls_verify_peer X USE_WOLFSSL cf data peer ctx tr
      = Ret CURLE_OK ctx (ev_check_domain_name (ssl ctx) name rc :: tr)).
Proof.
  intros Hconf Hhost Hsni rc. subst rc.
  assert (Hrun :
    Curl_vquic_tls_verify_peer X USE_WOLFSSL cf data peer ctx tr
    = Ret (if (x_wolfSSL_check_domain_name X tr (ssl ctx) name
               =? SSL_FAILURE)%Z
           then CURLE_PEER_FAILED_VERIFICATION else CURLE_OK)
        ctx
        (ev_check_domain_name (ssl ctx) name
           (x_wolfSSL_check_domain_name X tr (ssl ctx) name) :: tr)).
  { unfold Curl_vquic_tls_verify_peer, landing, bind.
    rewrite Hconf, Hhost. unfold_calls. rewrite Hsni.
    cbn -[Z.eqb].
    destruct (x_wolfSSL_check_domain_name X tr (ssl ctx) name
              =? SSL_FAILURE)%Z; reflexivity. }
  split; [ exact Hrun | ].
  intros Hneg. rewrite Hrun.
  destruct (Z.eqb_spec (x_wolfSSL_check_domain_name X tr (ssl ctx) name)
              SSL_FAILURE) as [Heq | Hne]; [ | reflexivity ].
  unfold SSL_FAILURE in Heq. lia.
Qed.

Lemma verify_peer_follows_domain_check_witness :
  Curl_vquic_tls_verify_peer Fixture.accepting USE_WOLFSSL
    (Fixture.filter Fixture.strict) Fixture.easy
    {| sni := Some "other.test" |} {| ssl_ctx := Some 0; ssl := Some 9 |} []
  = Ret CURLE_PEER_FAILED_VERIFICATION {| ssl_ctx := Some 0; ssl := Some 9 |}
      [ev_check_domain_name (Some 9) "other.test" SSL_FAILURE].
Proof.
  exact (proj1
    (verify_peer_follows_domain_check Fixture.accepting
       (Fixture.filter Fixture.strict) Fixture.easy
       {| sni := Some "other.test" |} Fixture.strict "other.test"
       {| ssl_ctx := Some 0; ssl := Some 9 |} [] eq_refl eq_refl eq_refl)).
Defined.

(** X14.  In the wolfSSL and GnuTLS builds Curl_vquic_tls_verify_peer
    always returns, leaves the structure untouched, calls the backend at
    most once, and neither creates nor frees a context or session. *)
Theorem verify_peer_keeps_structure X b cf data peer
  (ctx : curl_tls_ctx b) tr :
  b <> USE_OPENSSL ->
  exists r tr',
    Curl_vquic_tls_verify_peer X b cf data peer ctx tr = Ret r ctx tr'
    /\ (tr' = tr \/ exists e, tr' = e :: tr)
    /\ ctx_count tr' = ctx_count tr
    /\ ssl_count tr' = ssl_count tr
    /\ sessions_created tr' = sessions_created tr.
Proof.
  intros Hb.
  destruct b; [ congruence | | ].
  all: run_code.
  all: do 2 eexists; split; [ reflexivity | ].
  all: split; [ first [ left; reflexivity | right; eexists; reflexivity ] | ].
  all: repeat split.
Qed.

Lemma verify_peer_keeps_structure_witness :
  exists r tr',
    Curl_vquic_tls_verify_peer Fixture.accepting USE_GNUTLS
      (Fixture.filter Fixture.strict) Fixture.easy Fixture.named
      {| cred := Some 3; session := Some 4; trust_setup := true |} []
    = Ret r {| cred := Some 3; session := Some 4; trust_setup := true |} tr'
    /\ (tr' = [] \/ exists e, tr' = e :: [])
    /\ ctx_count tr' = ctx_count []
    /\ ssl_count tr' = ssl_count []
    /\ sessions_created tr' = sessions_created [].
Proof.
  refine (verify_peer_keeps_structure Fixture.accepting USE_GNUTLS
            (Fixture.filter Fixture.strict) Fixture.easy Fixture.named
            {| cred := Some 3; session := Some 4; trust_setup := true |} []
            _).
  discriminate.
Defined.

(** ** More on the trust setup *)

(** X15.  In the OpenSSL build Curl_vquic_tls_before_recv never changes
    the two handles of the structure; it returns CURLE_OK exactly when
    [x509_store_setup] is set afterwards; a set flag makes the call do
    nothing; and a failing trust-store setup is returned as it is with
    the structure unchanged, the flag still clear. *)
Theorem before_recv_openssl_ok_iff_ready X cf data ctx tr :
  exists r ctx' tr',
    Curl_vquic_tls_before_recv X USE_OPENSSL cf data ctx tr = Ret r ctx' tr'
    /\ ossl_ssl_ctx ctx' = ossl_ssl_ctx ctx
    /\ ossl_ssl ctx' = ossl_ssl ctx
    /\ (r = CURLE_OK <-> x509_store_setup ctx' = true)
    /\ (x509_store_setup ctx = true -> ctx' = ctx /\ tr' = tr)
    /\ (r <> CURLE_OK ->
        ctx' = ctx
        /\ tr' = ev_Curl_ssl_setup_x509_store (ossl_ssl_ctx ctx) r :: tr).
Proof.
  destruct ctx as [c s [ | ]].
  - exists CURLE_OK, (Build_ossl_ctx c s true), tr.
    cbn. repeat split; auto; congruence.
  - unfold_calls. cbn.
    destruct (x_Curl_ssl_setup_x509_store X tr cf data c) eqn:Hr; cbn.
    all: do 3 eexists; split; [ reflexivity | ].
    all: cbn; repeat split; intros; try congruence.
Qed.

(** X16.  The GnuTLS branch never writes [trust_setup] itself: with a
    helper that succeeds and leaves the structure as it found it, [n]
    calls run the helper [n] times. *)
Theorem gnutls_flag_is_left_to_helper X cf data n ctx tr :
  (forall h cf' data' g,
      x_Curl_gtls_client_trust_setup X h cf' data' g = (CURLE_OK, g)) ->
  trust_setup ctx = false ->
  before_recv_times X USE_GNUTLS cf data n (ctx, tr)
  = (ctx, repeat (ev_Curl_gtls_client_trust_setup CURLE_OK) n ++ tr)
  /\ trust_setups_done
       (snd (before_recv_times X USE_GNUTLS cf data n (ctx, tr)))
     = n + trust_setups_done tr.
Proof.
  intros Hhelper Hflag.
  assert (Hrun : forall m h,
    before_recv_times X USE_GNUTLS cf data m (ctx, h)
    = (ctx, repeat (ev_Curl_gtls_client_trust_setup CURLE_OK) m ++ h)).
  { induction m as [ | m IH]; intros h; [ reflexivity | ].
    cbn -[Curl_vquic_tls_before_recv repeat].
    assert (Hone :
      Curl_vquic_tls_before_recv X USE_GNUTLS cf data ctx h
      = Ret CURLE_OK ctx (ev_Curl_gtls_client_trust_setup CURLE_OK :: h)).
    { unfold_calls. rewrite Hflag. cbn. rewrite Hhelper. reflexivity. }
    rewrite Hone. cbn [after]. rewrite IH.
    f_equal. cbn [repeat].
    rewrite (repeat_cons m). rewrite <- app_assoc. reflexivity. }
  split; [ apply Hrun | ].
  rewrite Hrun. cbn [snd].
  clear Hrun. induction n as [ | n IH]; [ reflexivity | ].
  cbn. rewrite IH. reflexivity.
Qed.

Lemma gnutls_flag_is_left_to_helper_witness :
  before_recv_times forgetful_gnutls USE_GNUTLS
    (Fixture.filter Fixture.strict) Fixture.easy 3 (zeroed USE_GNUTLS, [])
  = (zeroed USE_GNUTLS,
     [ ev_Curl_gtls_client_trust_setup CURLE_OK;
       ev_Curl_gtls_client_trust_setup CURLE_OK;
       ev_Curl_gtls_client_trust_setup CURLE_OK ]).
Proof.
  exact (proj1
    (gnutls_flag_is_left_to_helper forgetful_gnutls
       (Fixture.filter Fixture.strict) Fixture.easy 3 (zeroed USE_GNUTLS) []
       (fun _ _ _ _ => eq_refl) eq_refl)).
Defined.

(** ** A structure that is not zeroed *)

(** X17.  curl_wssl_init_ctx on a structure that already holds a
    context: without a configuration it fails with CURLE_FAILED_INIT
    and frees that context, while the session pointer stays; with a
    configuration the held context is never freed and its pointer is
    overwritten or cleared, so it is lost.  The session pointer is not
    touched either way. *)
Theorem init_ctx_on_held_context X F cf data cb c0 s0 tr :
  c0 <> fresh tr ->
  exists r ctx' tr' d,
    curl_wssl_init_ctx X F cf data cb {| ssl_ctx := Some c0; ssl := s0 |} tr
    = Ret r ctx' tr'
    /\ added tr d tr'
    /\ ssl ctx' = s0
    /\ ssl_ctx ctx' <> Some c0
    /\ (Curl_ssl_cf_get_primary_config cf = None ->
        r = CURLE_FAILED_INIT /\ ssl_ctx ctx' = None
        /\ d = [ev_SSL_CTX_free c0])
    /\ (Curl_ssl_cf_get_primary_config cf <> None ->
        ~ In (ev_SSL_CTX_free c0) d).
Proof.
  intros Hold.
  run_code.
  all: field_facts.
  all: try congruence.
  all: do 4 eexists; split; [ reflexivity | ]; split; [ delta | ].
  all: cbn [ssl ssl_ctx].
  all: split; [ reflexivity | ].
  all: split; [ congruence | ].
  all: split; [ intros Hnone; try congruence; repeat split | ].
  all: intros Hconf; try congruence.
  all: intros Hin; cbn -[Z.eqb String.append substring fresh] in Hin.
  all: repeat (destruct Hin as [Hin | Hin];
               [ first [ discriminate Hin | congruence ] | ]).
  all: contradiction.
Qed.

Lemma init_ctx_on_held_context_witness :
  exists r ctx' tr' d,
    curl_wssl_init_ctx Fixture.accepting Fixture.release
      Fixture.unconfigured Fixture.easy None
      {| ssl_ctx := Some 0; ssl := Some 9 |}
      [ev_wolfSSL_new (Some 0) (Some 9); ev_wolfSSL_CTX_new (Some 0)]
    = Ret r ctx' tr'
    /\ added [ev_wolfSSL_new (Some 0) (Some 9); ev_wolfSSL_CTX_new (Some 0)]
         d tr'
    /\ ssl ctx' = Some 9
    /\ ssl_ctx ctx' <> Some 0
    /\ (Curl_ssl_cf_get_primary_config Fixture.unconfigured = None ->
        r = CURLE_FAILED_INIT /\ ssl_ctx ctx' = None
        /\ d = [ev_SSL_CTX_free 0])
    /\ (Curl_ssl_cf_get_primary_config Fixture.unconfigured <> None ->
        ~ In (ev_SSL_CTX_free 0) d).
Proof.
  refine (init_ctx_on_held_context Fixture.accepting Fixture.release
            Fixture.unconfigured Fixture.easy None 0 (Some 9)
            [ev_wolfSSL_new (Some 0) (Some 9); ev_wolfSSL_CTX_new (Some 0)]
            _).
  discriminate.
Defined.

(** X18.  Cleanup makes any wolfSSL structure fit for
    Curl_vquic_tls_init again: cleanup followed by init always returns,
    in debug builds too, the session it leaves comes with a context, and
    the live contexts and sessions are those before, less what the old
    structure held, plus what the new one holds. *)
Theorem cleanup_then_init_returns X F cf data peer alpn alpn_len cb ud
  (ctx : wssl_ctx) tr :
  exists r ctx' tr',
    (Curl_vquic_tls_cleanup USE_WOLFSSL;;
     Curl_vquic_tls_init X F USE_WOLFSSL cf data peer alpn alpn_len cb ud)
      ctx tr = Ret r ctx' tr'
    /\ (ssl ctx' <> None -> ssl_ctx ctx' <> None)
    /\ ctx_count tr'
       = (ctx_count tr - owned (ssl_ctx ctx) + owned (ssl_ctx ctx'))%Z
    /\ ssl_count tr'
       = (ssl_count tr - owned (ssl ctx) + owned (ssl ctx'))%Z.
Proof.
  destruct (init_from_zeroed X F cf data peer alpn alpn_len cb ud
              (rev (releases USE_WOLFSSL ctx) ++ tr))
    as (r & ctx' & tr' & Hrun & Hc & Hs & Hinv).
  exists r, ctx', tr'.
  split.
  - unfold bind at 1. rewrite cleanup_releases. exact Hrun.
  - destruct (cleanup_wolfssl_counts ctx tr) as [Hc0 Hs0].
    rewrite Hc0 in Hc. rewrite Hs0 in Hs.
    split; [ exact Hinv | split; assumption ].
Qed.

(** X19.  In a debug build Curl_vquic_tls_init on a structure that
    still holds a session never returns CURLE_OK: either the context
    build fails and its code is returned, or the assertion in
    curl_wssl_init_ssl aborts after the context was built.  No second
    session is created. *)
Theorem init_on_live_session_never_succeeds X F cf data peer alpn alpn_len
  cb ud c0 s0 tr :
  DEBUGBUILD F = true ->
  (exists tr',
      Curl_vquic_tls_init X F USE_WOLFSSL cf data peer alpn alpn_len cb ud
        {| ssl_ctx := c0; ssl := Some s0 |} tr = Abort tr'
      /\ sessions_created tr' = sessions_created tr)
  \/ (exists r ctx' tr',
        Curl_vquic_tls_init X F USE_WOLFSSL cf data peer alpn alpn_len cb ud
          {| ssl_ctx := c0; ssl := Some s0 |} tr = Ret r ctx' tr'
        /\ r <> CURLE_OK
        /\ ssl ctx' = Some s0
        /\ sessions_created tr' = sessions_created tr).
Proof.
  intros Hdbg.
  destruct (curl_wssl_init_ctx_returns X F cf data cb
              {| ssl_ctx := c0; ssl := Some s0 |} tr)
    as (r & [p q] & tr1 & Hrun & Hssl & Hsess & _ & _).
  cbn in Hssl. subst q.
  destruct (failed r) eqn:Hr.
  - right. apply failed_true_iff in Hr.
    exists r, {| ssl_ctx := p; ssl := Some s0 |}, tr1.
    split; [ now apply init_stops_on_ctx_failure | ].
    repeat split; assumption.
  - left. exists tr1. split; [ | exact Hsess ].
    unfold Curl_vquic_tls_init, landing, bind.
    rewrite Hrun, Hr. unfold_calls. rewrite Hdbg. reflexivity.
Qed.

Lemma init_on_live_session_never_succeeds_witness :
  (exists tr',
      Curl_vquic_tls_init Fixture.accepting Fixture.debug USE_WOLFSSL
        (Fixture.filter Fixture.strict) Fixture.easy Fixture.named None 0
        None None {| ssl_ctx := Some 0; ssl := Some 9 |}
        [ev_wolfSSL_new (Some 0) (Some 9); ev_wolfSSL_CTX_new (Some 0)]
      = Abort tr'
      /\ sessions_created tr' = 1)
  \/ (exists r ctx' tr',
        Curl_vquic_tls_init Fixture.accepting Fixture.debug USE_WOLFSSL
          (Fixture.filter Fixture.strict) Fixture.easy Fixture.named None 0
          None None {| ssl_ctx := Some 0; ssl := Some 9 |}
          [ev_wolfSSL_new (Some 0) (Some 9); ev_wolfSSL_CTX_new (Some 0)]
        = Ret r ctx' tr'
        /\ r <> CURLE_OK
        /\ ssl ctx' = Some 9
        /\ sessions_created tr' = 1).
Proof.
  exact (init_on_live_session_never_succeeds Fixture.accepting
           Fixture.debug (Fixture.filter Fixture.strict) Fixture.easy
           Fixture.named None 0 None None (Some 0) 9
           [ev_wolfSSL_new (Some 0) (Some 9); ev_wolfSSL_CTX_new (Some 0)]
           eq_refl).
Defined.
